(** * vaultapps: dashboard metrics, trend engine, resampler, activity feed,
      marketplace, hedging advice and user serialisation

    A shallow embedding of [backend/app/services/dashboard_service.py], of
    [backend/app/services/marketplace_service.py], of
    [generate_hedging_recommendation] from
    [backend/app/services/prediction_service.py] and of the [to_dict]
    methods of [backend/app/models/user.py], followed by the properties the
    specification states about them and by further properties of the code.

    Conventions of the embedding.
    - Python numbers (profits, amounts, rates) are exact rationals [Q]; the
      rounding error of binary floating point is not modelled.  Equality of
      computed numbers is therefore stated with [==] (Qeq) unless both sides
      are built by the same operations.  Where the order of the additions
      matters, [NumericHistory] repeats the function over an arbitrary
      number type and over binary64 floats.
    - A naive [datetime] is an integer count of microseconds since
      1970-01-01 00:00:00, a [timedelta] an integer count of microseconds.
    - The database is a record of tables; a table that is looked up by
      primary key is a [gmap], a table that is filtered and ordered is a
      list in table order.
    - The readings of [datetime.now()] taken during one call of a service
      function are identified with the single reading [now] passed in. *)

From Stdlib Require Import ZArith QArith Qround Qabs Lia Lqa String DecimalString.
From Corelib Require PrimFloat.
From Stdlib Require Uint63.
From Stdlib Require FloatOps SpecFloat.
From stdpp Require Import base option list sorting gmap strings.

Open Scope Z_scope.

Abbreviation datetime := Z (only parsing).

(** ** Python built-ins used by the services *)
Module Py.

(** [sum(xs)]: left fold from the integer 0. *)
Definition sum (xs : list Q) : Q := fold_left Qplus xs 0%Q.

(** [str(n)] for an integer. *)
Definition str (n : Z) : string := NilZero.string_of_int (Z.to_int n).

(** Round half to even, to the nearest integer. *)
Definition round_half_even (x : Q) : Z :=
  let f := Qfloor x in
  match (x - inject_Z f ?= 1 # 2)%Q with
  | Lt => f
  | Gt => f + 1
  | Eq => if Z.even f then f else f + 1
  end.

(** [round(x, ndigits)]; the result is the fraction with denominator
    [10 ^ ndigits]. *)
Definition round (x : Q) (ndigits : nat) : Q :=
  let scale := Pos.pow 10 (Pos.of_nat ndigits) in
  match ndigits with
  | O => inject_Z (round_half_even x)
  | S _ => Qmake (round_half_even (x * inject_Z (Zpos scale))) scale
  end.

(** Insertion of [x] in front of the first element it may precede. *)
Fixpoint insort {A} (before : A -> A -> bool) (x : A) (l : list A) : list A :=
  match l with
  | [] => [x]
  | y :: l' => if before x y then x :: l else y :: insort before x l'
  end.

(** [sorted(l, key=key, reverse=reverse)] and [list.sort]: a stable sort,
    elements with equal keys keep their original order, also with
    [reverse=True]. *)
Definition sorted {A} (key : A -> Z) (reverse : bool) (l : list A) : list A :=
  foldr (insort (fun x y => if reverse then key y <=? key x
                            else key x <=? key y)) [] l.

(** The order [sorted] establishes between an element and a later one. *)
Definition in_order {A} (key : A -> Z) (reverse : bool) (x y : A) : Prop :=
  if reverse then key y <= key x else key x <= key y.

End Py.

(** ** [datetime] and [timedelta] *)
Module Datetime.

Definition MICROS_PER_SECOND : Z := 1000000.
Definition MICROS_PER_DAY : Z := 86400000000.

(** [timedelta(days=d)] *)
Definition timedelta (days : Z) : Z := days * MICROS_PER_DAY.

(** The normalised fields of a [timedelta]: [days] may be negative,
    [0 <= seconds < 86400]. *)
Definition td_days (d : Z) : Z := d / MICROS_PER_DAY.
Definition td_seconds (d : Z) : Z := (d mod MICROS_PER_DAY) / MICROS_PER_SECOND.

(** Proleptic Gregorian date (year, month, day) of a day number counted
    from 1970-01-01. *)
Definition civil_from_days (z : Z) : Z * Z * Z :=
  let z := z + 719468 in
  let era := z / 146097 in
  let doe := z - era * 146097 in
  let yoe := (doe - doe / 1460 + doe / 36524 - doe / 146096) / 365 in
  let y := yoe + era * 400 in
  let doy := doe - (365 * yoe + yoe / 4 - yoe / 100) in
  let mp := (5 * doy + 2) / 153 in
  let d := doy - (153 * mp + 2) / 5 + 1 in
  let m := if mp <? 10 then mp + 3 else mp - 9 in
  (if m <=? 2 then y + 1 else y, m, d).

Definition month_abbr (m : Z) : string :=
  match m with
  | 1 => "Jan" | 2 => "Feb" | 3 => "Mar" | 4 => "Apr"
  | 5 => "May" | 6 => "Jun" | 7 => "Jul" | 8 => "Aug"
  | 9 => "Sep" | 10 => "Oct" | 11 => "Nov" | _ => "Dec"
  end.

Definition two_digits (d : Z) : string :=
  if d <? 10 then "0" +:+ Py.str d else Py.str d.

(** [t.strftime('%b %d')] *)
Definition strftime_b_d (t : datetime) : string :=
  let '(_, m, d) := civil_from_days (t / MICROS_PER_DAY) in
  month_abbr m +:+ " " +:+ two_digits d.

End Datetime.

(** ** The part of pandas used by [get_performance_history]

    [df.resample(freq).sum()] for a fixed frequency with the default
    [origin='start_day'], [closed='left'], [label='left'], as documented by
    pandas: the bin edges are [origin + k * freq] where [origin] is midnight
    of the day of the first timestamp, the bins run from the one holding the
    first timestamp to the one holding the last, every bin produces a row
    labelled by its left edge, and a bin without rows sums to 0. *)
Module Pandas.

(** [Timestamp.normalize()]: midnight of the same day. *)
Definition normalize (t : datetime) : datetime := t - t mod Datetime.MICROS_PER_DAY.

Definition index_min (rows : list (datetime * Q)) : datetime :=
  match rows with
  | [] => 0
  | r :: rows' => foldr (fun r' m => Z.min r'.1 m) r.1 rows'
  end.

Definition index_max (rows : list (datetime * Q)) : datetime :=
  match rows with
  | [] => 0
  | r :: rows' => foldr (fun r' m => Z.max r'.1 m) r.1 rows'
  end.

(** The adjusted range [(first', last')] of the bin edges. *)
Definition range_edges (freq : Z) (first last : datetime) : datetime * datetime :=
  let origin := normalize first in
  let foffset := (first - origin) mod freq in
  let loffset := (last - origin) mod freq in
  let fresult := if 0 <? foffset then first - foffset else first in
  let lresult := if 0 <? loffset then last + (freq - loffset) else last + freq in
  (fresult, lresult).

(** Left edges of the bins. *)
Definition bin_labels (freq : Z) (rows : list (datetime * Q)) : list datetime :=
  let '(fresult, lresult) := range_edges freq (index_min rows) (index_max rows) in
  let n := Z.to_nat ((lresult - fresult) / freq) in
  (fun k : nat => fresult + Z.of_nat k * freq) <$> seq 0 n.

(** Sum of the rows of the bin [[edge, edge + freq)]. *)
Definition bin_sum (freq : Z) (rows : list (datetime * Q)) (edge : datetime) : Q :=
  Py.sum ((fun r => r.2) <$>
          filter (fun r : datetime * Q => edge <= r.1 /\ r.1 < edge + freq) rows).

(** [df.resample(freq).sum().reset_index()] *)
Definition resample_sum (freq : Z) (rows : list (datetime * Q)) : list (datetime * Q) :=
  match rows with
  | [] => []
  | _ => (fun edge => (edge, bin_sum freq rows edge)) <$> bin_labels freq rows
  end.

Fixpoint cumsum_from (acc : Q) (col : list (datetime * Q)) : list (datetime * Q) :=
  match col with
  | [] => []
  | (t, v) :: col' =>
      let acc' := (acc + v)%Q in (t, acc') :: cumsum_from acc' col'
  end.

(** [df['profit'] = df['profit'].cumsum()] *)
Definition cumsum (col : list (datetime * Q)) : list (datetime * Q) :=
  cumsum_from 0%Q col.

(** Two rows with the same label and equal values. *)
Definition same_row (r r' : datetime * Q) : Prop :=
  r.1 = r'.1 /\ (r.2 == r'.2)%Q.

End Pandas.

(** ** Data model

    The model classes imported by the services ([models.bet],
    [models.subscription], [models.user_model], [models.marketplace]) are
    not among the source files; the records below carry the attributes the
    services read and write. *)

(** Modelled from the spec: the [Bet] class of [models.bet] (spec section 3).
    [profit] is [None] when the bet carries no profit value
    ([hasattr(bet, 'profit')] is false), [event_name] is [None] when the bet
    has no event label. *)
Module Bet.
Record t := {
  id : Z;
  user_id : Z;
  created_at : datetime;
  status : string;
  amount : Q;
  profit : option Q;
  event_name : option string
}.
End Bet.

(** Modelled from the spec: the [Subscription] class of
    [models.subscription] (spec section 3), with the [tier] that
    [purchase_pick] compares. *)
Module Subscription.
Record t := {
  id : Z;
  user_id : Z;
  plan_name : string;
  created_at : datetime;
  active : bool;
  tier : Z
}.
End Subscription.

(** Modelled from the spec: the [User] class of [models.user_model] (spec
    section 3): either attribute of the follower count may be missing.
    [purchased_picks] is the relationship [purchase_pick] appends to, as the
    list of pick ids. *)
Module User.
Record t := {
  id : Z;
  followers : option (list Z);
  followers_count : option Z;
  purchased_picks : list Z
}.
End User.

(** Modelled from the spec: the [Pick] class of [models.marketplace], with the
    two columns [purchase_pick] uses. *)
Module Pick.
Record t := {
  id : Z;
  required_tier : Z;
  sales : Z
}.
End Pick.

(** The database: [users] and [picks] are read by primary key. *)
Record Store := {
  users : gmap Z User.t;
  bets : list Bet.t;
  subscriptions : list Subscription.t;
  picks : gmap Z Pick.t
}.

(** Values held by the activity dictionaries. *)
Inductive value :=
| VStr (s : string)
| VDate (t : datetime).

Abbreviation dict := (gmap string value).

(** ** services/dashboard_service.py *)
Module DashboardService.

Record Metrics := {
  winRate : Q;
  winRateTrend : Q;
  totalProfit : Q;
  profitTrend : Q;
  clutchPicks : Z;
  clutchPicksTrend : Q;
  followers : Z;
  followersTrend : Q
}.

Record PerformancePoint := {
  date : string;
  profit : Q
}.

(** [_calculate_win_rate(bets)] *)
Definition _calculate_win_rate (bets : list Bet.t) : Q :=
  match bets with
  | [] => 0%Q
  | _ =>
      let winning_bets := filter (fun bet => Bet.status bet = "win") bets in
      ((inject_Z (Z.of_nat (length winning_bets))
        / inject_Z (Z.of_nat (length bets))) * 100)%Q
  end.

(** The query shared by the two period metrics:
    [Bet.query.filter(user_id, created_at >= start_date, status != 'pending')],
    narrowed by [created_at < end_date] when an end date is given. *)
Definition period_bets (db : Store) (user_id : Z) (start_date : datetime)
    (end_date : option datetime) : list Bet.t :=
  let query :=
    filter (fun bet => Bet.user_id bet = user_id
                       /\ start_date <= Bet.created_at bet
                       /\ Bet.status bet <> "pending") (bets db) in
  match end_date with
  | Some end_date => filter (fun bet => Bet.created_at bet < end_date) query
  | None => query
  end.

(** [_calculate_period_win_rate(user_id, start_date, end_date=None)] *)
Definition _calculate_period_win_rate (db : Store) (user_id : Z)
    (start_date : datetime) (end_date : option datetime) : Q :=
  _calculate_win_rate (period_bets db user_id start_date end_date).

(** [sum(bet.profit for bet in bets if hasattr(bet, 'profit'))] *)
Definition profit_sum (bets : list Bet.t) : Q :=
  Py.sum (omap Bet.profit bets).

(** [_calculate_period_profit(user_id, start_date, end_date=None)] *)
Definition _calculate_period_profit (db : Store) (user_id : Z)
    (start_date : datetime) (end_date : option datetime) : Q :=
  profit_sum (period_bets db user_id start_date end_date).

(** [_calculate_percentage_change(current_value, previous_value)] *)
Definition _calculate_percentage_change (current_value previous_value : Q) : Q :=
  if Qeq_bool previous_value 0 then 0%Q
  else (((current_value - previous_value) / Qabs previous_value) * 100)%Q.

(** [_calculate_trend_metric(user_id, metric_func, current_period_days,
    previous_period_days)] *)
Definition _calculate_trend_metric (db : Store) (now : datetime) (user_id : Z)
    (metric_func : Store -> Z -> datetime -> option datetime -> Q)
    (current_period_days previous_period_days : Z) : Q :=
  let current_period_start := now - Datetime.timedelta current_period_days in
  let previous_period_start := now - Datetime.timedelta previous_period_days in
  let current_metric := metric_func db user_id current_period_start None in
  let previous_metric :=
    metric_func db user_id previous_period_start (Some current_period_start) in
  _calculate_percentage_change current_metric previous_metric.

(** [_get_followers_count(user_id)] *)
Definition _get_followers_count (db : Store) (user_id : Z) : Z :=
  match users db !! user_id with
  | Some user =>
      match User.followers user, User.followers_count user with
      | Some fs, _ => Z.of_nat (length fs)
      | None, Some n => n
      | None, None => 0
      end
  | None => 0
  end.

(** [_calculate_followers_trend(user_id)] *)
Definition _calculate_followers_trend (db : Store) (user_id : Z) : Q := 0%Q.

(** [_format_relative_time(timestamp)] *)
Definition _format_relative_time (now timestamp : datetime) : string :=
  let time_diff := now - timestamp in
  if 0 <? Datetime.td_days time_diff then
    Py.str (Datetime.td_days time_diff) +:+ "d ago"
  else if 3600 <=? Datetime.td_seconds time_diff then
    Py.str (Datetime.td_seconds time_diff / 3600) +:+ "h ago"
  else if 60 <=? Datetime.td_seconds time_diff then
    Py.str (Datetime.td_seconds time_diff / 60) +:+ "m ago"
  else "just now".

(** The sampling frequency chosen from the requested horizon. *)
Definition freq (days : Z) : Z :=
  if days <=? 30 then Datetime.timedelta 1
  else if days <=? 90 then Datetime.timedelta 7
  else Datetime.timedelta 15.

(** The rows handed to pandas: the settled bets of the user since
    [start_date] in the order of [created_at], those without profit left
    out. *)
Definition bet_data (db : Store) (user_id : Z) (start_date : datetime)
    : list (datetime * Q) :=
  let bets :=
    Py.sorted Bet.created_at false
      (filter (fun bet => Bet.user_id bet = user_id
                          /\ start_date <= Bet.created_at bet
                          /\ Bet.status bet <> "pending") (bets db)) in
  omap (fun bet => match Bet.profit bet with
                   | Some p => Some (Bet.created_at bet, p)
                   | None => None
                   end) bets.

(** [get_performance_history(user_id, days=180)] *)
Definition get_performance_history (db : Store) (now : datetime) (user_id : Z)
    (days : Z) : list PerformancePoint :=
  let start_date := now - Datetime.timedelta days in
  let bet_data := bet_data db user_id start_date in
  match bet_data with
  | [] => []
  | _ =>
      let resampled := Pandas.resample_sum (freq days) bet_data in
      let resampled := Pandas.cumsum resampled in
      (fun row : datetime * Q =>
         {| date := Datetime.strftime_b_d row.1;
            profit := Py.round row.2 2 |}) <$> resampled
  end.

Section with_collaborators.

(** [BetService.get_clutch_picks_count(user_id, start_date=None,
    end_date=None)] of [services.bet_service], which is not among the
    source files. *)
Variable get_clutch_picks_count :
  Store -> Z -> option datetime -> option datetime -> Z.

(** The text an f-string produces for a number ([amount], [profit]); it
    depends on the column types of the absent [Bet] class. *)
Variable format_number : Q -> string.

(** [get_user_metrics(user_id)] *)
Definition get_user_metrics (db : Store) (now : datetime) (user_id : Z)
    : option Metrics :=
  match users db !! user_id with
  | None => None
  | Some user =>
      let all_bets := filter (fun bet => Bet.user_id bet = user_id) (bets db) in
      let settled_bets :=
        filter (fun bet => Bet.status bet <> "pending") all_bets in
      let win_rate := _calculate_win_rate settled_bets in
      let win_rate_trend :=
        _calculate_trend_metric db now user_id _calculate_period_win_rate 30 60 in
      let total_profit := profit_sum settled_bets in
      let profit_trend :=
        _calculate_trend_metric db now user_id _calculate_period_profit 30 60 in
      let clutch_picks := get_clutch_picks_count db user_id None None in
      let one_month_ago := now - Datetime.timedelta 30 in
      let two_months_ago := now - Datetime.timedelta 60 in
      let current_clutch_picks :=
        get_clutch_picks_count db user_id (Some one_month_ago) None in
      let previous_clutch_picks :=
        get_clutch_picks_count db user_id (Some two_months_ago)
          (Some one_month_ago) in
      let clutch_picks_trend :=
        _calculate_percentage_change (inject_Z current_clutch_picks)
          (inject_Z previous_clutch_picks) in
      let followers_count := _get_followers_count db user_id in
      let followers_trend := _calculate_followers_trend db user_id in
      Some {| winRate := Py.round win_rate 1;
              winRateTrend := Py.round win_rate_trend 1;
              totalProfit := Py.round total_profit 2;
              profitTrend := Py.round profit_trend 1;
              clutchPicks := clutch_picks;
              clutchPicksTrend := Py.round clutch_picks_trend 1;
              followers := followers_count;
              followersTrend := Py.round followers_trend 1 |}
  end.

Definition outcome_word (status : string) : string :=
  if decide (status = "win") then "Won"
  else if decide (status = "loss") then "Lost"
  else "Placed".

(** The dictionary appended for one bet. *)
Definition bet_activity (now : datetime) (bet : Bet.t) : dict :=
  let activity_type :=
    if decide (Bet.status bet ∈ ["win"; "loss"]) then Bet.status bet else "bet" in
  let description :=
    match Bet.event_name bet with
    | Some (String c s) =>
        outcome_word (Bet.status bet) +:+ " $"
          +:+ format_number (Qabs (Bet.amount bet)) +:+ " on " +:+ String c s
    | _ =>
        outcome_word (Bet.status bet) +:+ " $"
          +:+ format_number (Qabs (Bet.amount bet)) +:+ " bet"
    end in
  let description :=
    match Bet.profit bet with
    | Some p =>
        if decide (Bet.status bet ∈ ["win"; "loss"])
        then description +:+ " ($" +:+ format_number (Qabs p) +:+ ")"
        else description
    | None => description
    end in
  <["type" := VStr activity_type]>
    (<["description" := VStr description]>
      (<["time" := VStr (_format_relative_time now (Bet.created_at bet))]>
        (<["date" := VDate (Bet.created_at bet)]> ∅))).

(** The dictionary appended for one subscription. *)
Definition subscription_activity (now : datetime) (sub : Subscription.t) : dict :=
  <["type" := VStr "purchase"]>
    (<["description" := VStr ("Purchased " +:+ Subscription.plan_name sub +:+ " Plan")]>
      (<["time" := VStr (_format_relative_time now (Subscription.created_at sub))]>
        (<["date" := VDate (Subscription.created_at sub)]> ∅))).

(** [x["date"]], the sort key; every activity is built with this key. *)
Definition date_key (activity : dict) : datetime :=
  match activity !! "date" with
  | Some (VDate t) => t
  | _ => 0
  end.

(** The activities before sorting: bets first, then subscriptions. *)
Definition activities (db : Store) (now : datetime) (user_id : Z) (limit : nat)
    : list dict :=
  let recent_bets :=
    take limit (Py.sorted Bet.created_at true
                  (filter (fun bet => Bet.user_id bet = user_id) (bets db))) in
  let recent_subscriptions :=
    take 3 (Py.sorted Subscription.created_at true
              (filter (fun sub => Subscription.user_id sub = user_id)
                      (subscriptions db))) in
  (bet_activity now <$> recent_bets)
    ++ (subscription_activity now <$> recent_subscriptions).

(** [get_recent_activity(user_id, limit=15)]; [limit] is a row count. *)
Definition get_recent_activity (db : Store) (now : datetime) (user_id : Z)
    (limit : nat) : list dict :=
  let activities := Py.sorted date_key true (activities db now user_id limit) in
  let activities := delete "date" <$> activities in
  take limit activities.

End with_collaborators.

End DashboardService.

(** ** services/marketplace_service.py: [purchase_pick] *)
Module MarketplaceService.

(** [self.db.session]: the committed database and the session's working
    copy of it, which holds the changes not yet committed. *)
Record Session := {
  committed : Store;
  working : Store
}.

(** The statements of the [try] block and the [rollback] of the handler,
    each of which may raise. *)
Inductive step :=
| GetUser | GetPick | FirstSubscription | CompareTier
| AppendPick | IncrementSales | Commit | ToDict | Rollback.

Global Instance step_eq_dec : EqDecision step.
Proof. solve_decision. Defined.

Inductive outcome (A : Type) :=
| Returned (a : A)
| Raised (s : step).
Arguments Returned {A} a.
Arguments Raised {A} s.

(** Computations over the session that return or raise. *)
Definition M (A : Type) : Type := Session -> Session * outcome A.

Global Instance M_ret : MRet M := fun A a σ => (σ, Returned a).
Global Instance M_bind : MBind M := fun A B k m σ =>
  match m σ with
  | (σ', Returned a) => k a σ'
  | (σ', Raised s) => (σ', Raised s)
  end.

(** [try: body except Exception: handler] *)
Definition try_except {A} (body : M A) (handler : step -> M A) : M A :=
  fun σ =>
    match body σ with
    | (σ', Returned a) => (σ', Returned a)
    | (σ', Raised s) => handler s σ'
    end.

(** The dictionary [purchase_pick] returns; [pick] is [None] when the key
    is not present. *)
Record PurchaseResult := {
  success : bool;
  message : string;
  pick : option Pick.t
}.

Section with_faults.

(** Which statements raise in this invocation. *)
Variable raises : step -> bool.

Definition attempt (s : step) : M unit :=
  fun σ => if raises s then (σ, Raised s) else (σ, Returned ()).

Definition read {A} (f : Store -> A) : M A :=
  fun σ => (σ, Returned (f (working σ))).

Definition modify (f : Store -> Store) : M unit :=
  fun σ => ({| committed := committed σ; working := f (working σ) |}, Returned ()).

(** [User.query.get(user_id)] *)
Definition get_user (user_id : Z) : M (option User.t) :=
  attempt GetUser;; read (fun db => users db !! user_id).

(** [Pick.query.get(pick_id)] *)
Definition get_pick (pick_id : Z) : M (option Pick.t) :=
  attempt GetPick;; read (fun db => picks db !! pick_id).

(** [Subscription.query.filter_by(user_id=user_id, active=True).first()] *)
Definition first_subscription (user_id : Z) : M (option Subscription.t) :=
  attempt FirstSubscription;;
  read (fun db =>
          head (filter (fun sub => Subscription.user_id sub = user_id
                                   /\ Subscription.active sub = true)
                       (subscriptions db))).

(** [not subscription or subscription.tier < pick.required_tier]; the
    comparison is evaluated only when there is a subscription. *)
Definition needs_payment (subscription : option Subscription.t) (pick : Pick.t)
    : M bool :=
  match subscription with
  | None => mret true
  | Some sub =>
      attempt CompareTier;;
      mret (Subscription.tier sub <? Pick.required_tier pick)
  end.

(** The picks related to a user after [pick_id] is appended: the
    relationship holds a pick once, appending one the user already has
    adds no second association. *)
Definition add_pick (held : list Z) (pick_id : Z) : list Z :=
  if decide (pick_id ∈ held) then held else held ++ [pick_id].

(** [user.purchased_picks.append(pick)] *)
Definition append_purchased_pick (user_id pick_id : Z) : M unit :=
  attempt AppendPick;;
  modify (fun db =>
    {| users := alter (fun u => {| User.id := User.id u;
                                   User.followers := User.followers u;
                                   User.followers_count := User.followers_count u;
                                   User.purchased_picks :=
                                     add_pick (User.purchased_picks u) pick_id |})
                      user_id (users db);
       bets := bets db;
       subscriptions := subscriptions db;
       picks := picks db |}).

(** [pick.sales += 1] *)
Definition increment_sales (pick_id : Z) : M unit :=
  attempt IncrementSales;;
  modify (fun db =>
    {| users := users db;
       bets := bets db;
       subscriptions := subscriptions db;
       picks := alter (fun p => {| Pick.id := Pick.id p;
                                   Pick.required_tier := Pick.required_tier p;
                                   Pick.sales := Pick.sales p + 1 |})
                      pick_id (picks db) |}).

(** [self.db.session.commit()] *)
Definition flush : M unit :=
  fun σ => ({| committed := working σ; working := working σ |}, Returned ()).

Definition commit : M unit :=
  attempt Commit;; flush.

Definition discard : M unit :=
  fun σ => ({| committed := committed σ; working := committed σ |}, Returned ()).

(** [self.db.session.rollback()] *)
Definition rollback : M unit :=
  attempt Rollback;; discard.

(** [pick.to_dict()]: the columns of the pick as the session holds it. *)
Definition to_dict (pick_id : Z) : M (option Pick.t) :=
  attempt ToDict;; read (fun db => picks db !! pick_id).

Definition not_found : PurchaseResult :=
  {| success := false; message := "User or pick not found"; pick := None |}.

Definition processing_error : PurchaseResult :=
  {| success := false; message := "Error processing purchase"; pick := None |}.

(** The body of the [try] statement. *)
Definition try_body (user_id pick_id : Z) : M PurchaseResult :=
  user ← get_user user_id;
  pick ← get_pick pick_id;
  match user, pick with
  | Some user, Some pick =>
      subscription ← first_subscription user_id;
      _ ← needs_payment subscription pick;
      append_purchased_pick user_id pick_id;;
      increment_sales pick_id;;
      commit;;
      d ← to_dict pick_id;
      mret {| success := true;
              message := "Pick purchased successfully";
              pick := d |}
  | _, _ => mret not_found
  end.

(** [purchase_pick(user_id, pick_id)]; what the handler raises reaches the
    caller. *)
Definition purchase_pick (user_id pick_id : Z) : M PurchaseResult :=
  try_except (try_body user_id pick_id)
             (fun e => rollback;; mret processing_error).

End with_faults.

End MarketplaceService.

(** ** services/marketplace_service.py: the listings

    The classes [FeaturedPick] and [Category] of [models.marketplace] are not
    among the source files, and neither are the columns [created_at],
    [active] and [rating] of [Pick]: the row types and the columns are
    parameters.  [to_dict] answers [None] when it raises, [query_raises]
    tells whether the query itself raises. *)
Module MarketplaceListings.

(** SQL [ORDER BY key1 DESC, key2 DESC], ties in table order. *)
Definition order_by_desc2 {A} (key1 : A -> Z) (key2 : A -> Q) (rows : list A)
    : list A :=
  foldr (Py.insort (fun x y => (key1 y <? key1 x)
                               || ((key1 y =? key1 x) && Qle_bool (key2 y) (key2 x))))
        [] rows.

(** The order [order_by_desc2] establishes between a row and a later one. *)
Definition desc2 {A} (key1 : A -> Z) (key2 : A -> Q) (x y : A) : Prop :=
  key1 y < key1 x \/ (key1 y = key1 x /\ (key2 y <= key2 x)%Q).

Section listings.
Context {Row Dict : Type}.
Variable active : Row -> bool.
Variable created_at : Row -> datetime.
Variable to_dict : Row -> option Dict.

(** The rows [get_featured_picks] serialises:
    [filter_by(active=True).order_by(desc(created_at)).limit(6)]. *)
Definition featured_rows (table : list Row) : list Row :=
  take 6 (Py.sorted created_at true (filter (fun r => active r = true) table)).

(** [get_featured_picks()] *)
Definition get_featured_picks (query_raises : bool) (table : list Row) : list Dict :=
  if query_raises then []
  else match mapM to_dict (featured_rows table) with
       | Some dicts => dicts
       | None => []
       end.

Variable pick_count : Row -> Z.

(** The rows [get_trending_categories] serialises:
    [filter_by(active=True).order_by(desc(pick_count)).limit(4)]. *)
Definition trending_rows (table : list Row) : list Row :=
  take 4 (Py.sorted pick_count true (filter (fun r => active r = true) table)).

Definition default_categories : list string := ["NBA"; "NFL"; "MLB"; "UFC"].

(** [get_trending_categories()]: dictionaries, or the default names. *)
Definition get_trending_categories (query_raises : bool) (table : list Row)
    : list (Dict + string) :=
  if query_raises then inr <$> default_categories
  else match mapM to_dict (trending_rows table) with
       | Some dicts => inl <$> dicts
       | None => inr <$> default_categories
       end.

Variable sales : Row -> Z.
Variable rating : Row -> Q.

(** The rows [get_clutch_picks] serialises: created in the last 30 days and
    active, [order_by(desc(sales), desc(rating)).limit(limit)]. *)
Definition clutch_rows (now : datetime) (limit : nat) (table : list Row) : list Row :=
  let thirty_days_ago := now - Datetime.timedelta 30 in
  take limit
    (order_by_desc2 sales rating
       (filter (fun r => thirty_days_ago <= created_at r /\ active r = true) table)).

(** [get_clutch_picks(limit=8)]; [limit] is a row count. *)
Definition get_clutch_picks (query_raises : bool) (now : datetime) (limit : nat)
    (table : list Row) : list Dict :=
  if query_raises then []
  else match mapM to_dict (clutch_rows now limit table) with
       | Some dicts => dicts
       | None => []
       end.

End listings.

End MarketplaceListings.

(** ** services/prediction_service.py *)
Module PredictionService.





End PredictionService.

(** ** models/user.py *)
Module UserModel.

(** Values of the dictionaries [to_dict] builds; a dictionary keeps its keys
    in insertion order. *)
#[warnings="-register-all"]
Inductive json :=
| JNone
| JBool (b : bool)
| JInt (n : Z)
| JStr (s : string)
| JDict (items : list (string * json)).

(** Decimal digits of [n] padded with zeros to [width]. *)
Definition zero_padded (width : nat) (n : Z) : string :=
  let digits := Py.str n in
  String.concat "" (replicate (width - String.length digits) "0") +:+ digits.

(** [datetime.isoformat()] *)
Definition isoformat (t : datetime) : string :=
  let '(y, m, d) := Datetime.civil_from_days (t / Datetime.MICROS_PER_DAY) in
  let in_day := t mod Datetime.MICROS_PER_DAY in
  let seconds := in_day / Datetime.MICROS_PER_SECOND in
  let micros := in_day mod Datetime.MICROS_PER_SECOND in
  zero_padded 4 y +:+ "-" +:+ zero_padded 2 m +:+ "-" +:+ zero_padded 2 d
    +:+ "T" +:+ zero_padded 2 (seconds / 3600)
    +:+ ":" +:+ zero_padded 2 ((seconds / 60) mod 60)
    +:+ ":" +:+ zero_padded 2 (seconds mod 60)
    +:+ (if micros =? 0 then "" else "." +:+ zero_padded 6 micros).

(** A column that is [None] until a value is assigned or the row is
    inserted, as a [json] value. *)
Definition json_of {A} (inject : A -> json) (column : option A) : json :=
  match column with
  | Some a => inject a
  | None => JNone
  end.

Module Subscription.
Record t := {
  id : option Z;
  user_id : option Z;
  plan : option string;
  start_date : option datetime;
  end_date : option datetime;
  is_active : option bool
}.
End Subscription.

(** [Subscription.to_dict()]; [None] when [start_date.isoformat()] raises. *)
Definition subscription_to_dict (self : Subscription.t) : option json :=
  match Subscription.start_date self with
  | None => None
  | Some start_date =>
      Some (JDict [("id", json_of JInt (Subscription.id self));
                   ("plan", json_of JStr (Subscription.plan self));
                   ("start_date", JStr (isoformat start_date));
                   ("end_date", json_of (fun t => JStr (isoformat t))
                                  (Subscription.end_date self));
                   ("is_active", json_of JBool (Subscription.is_active self))])
  end.

Section user.

(** The class behind the [betting_stats] relationship and its [to_dict],
    which are not among the source files, and werkzeug's
    [generate_password_hash]. *)
Context {BettingStats : Type}.
Variable betting_stats_to_dict : BettingStats -> option json.
Variable generate_password_hash : string -> string.

Record User := {
  id : option Z;
  username : string;
  email : string;
  name : string;
  password_hash : string;
  created_at : option datetime;
  profile_picture : option string;
  last_login : option datetime;
  subscription : option Subscription.t;
  betting_stats : option BettingStats
}.

(** [User(username, email, name, password)]: the column defaults are applied
    when the row is inserted, not by the constructor. *)
Definition __init__ (username email name password : string) : User :=
  {| id := None;
     username := username;
     email := email;
     name := name;
     password_hash := generate_password_hash password;
     created_at := None;
     profile_picture := None;
     last_login := None;
     subscription := None;
     betting_stats := None |}.

(** [self.x.to_dict() if self.x else None] *)
Definition related_to_dict {A} (to_dict : A -> option json) (related : option A)
    : option json :=
  match related with
  | Some x => to_dict x
  | None => Some JNone
  end.

(** [User.to_dict()]; [None] when building the dictionary raises. *)
Definition to_dict (self : User) : option json :=
  match created_at self with
  | None => None
  | Some created =>
      sub ← related_to_dict subscription_to_dict (subscription self);
      stats ← related_to_dict betting_stats_to_dict (betting_stats self);
      Some (JDict [("id", json_of JInt (id self));
                   ("username", JStr (username self));
                   ("email", JStr (email self));
                   ("name", JStr (name self));
                   ("created_at", JStr (isoformat created));
                   ("profile_picture", json_of JStr (profile_picture self));
                   ("subscription", sub);
                   ("betting_stats", stats)])
  end.

End user.

End UserModel.

(** ** [get_performance_history] over the numbers of the database

    The function of [DashboardService] once more, with the profits kept in
    the number type [N] of the column: [aggregate] is the sum pandas takes
    over the values of one bin, which it visits in row order, [add] the
    addition of [cumsum] and [round2] the decimal value of
    [round(float(x), 2)].  With exact rationals this is
    [DashboardService.get_performance_history]. *)
Module NumericHistory.

(** The columns of a bet the function reads. *)
Record BetRow (N : Type) := {
  user_id : Z;
  created_at : datetime;
  status : string;
  profit : option N
}.
Arguments user_id {N} _.
Arguments created_at {N} _.
Arguments status {N} _.
Arguments profit {N} _.

Section numbers.
Context {N : Type}.
Variable aggregate : list N -> N.
Variable zero : N.
Variable add : N -> N -> N.
Variable round2 : N -> Q.

(** The rows handed to pandas, in the order of the query. *)
Definition bet_data (bets : list (BetRow N)) (uid : Z) (start_date : datetime)
    : list (datetime * N) :=
  let bets :=
    Py.sorted created_at false
      (filter (fun bet => user_id bet = uid
                          /\ start_date <= created_at bet
                          /\ status bet <> "pending") bets) in
  omap (fun bet => match profit bet with
                   | Some p => Some (created_at bet, p)
                   | None => None
                   end) bets.

(** The index of the frame, as [Pandas.bin_labels] reads it. *)
Definition index (rows : list (datetime * N)) : list (datetime * Q) :=
  (fun r => (r.1, 0%Q)) <$> rows.

(** The values of the bin [[edge, edge + freq)], in row order. *)
Definition bin_values (freq : Z) (rows : list (datetime * N)) (edge : datetime)
    : list N :=
  snd <$> filter (fun r : datetime * N => edge <= r.1 /\ r.1 < edge + freq) rows.

(** [df.resample(freq).sum().reset_index()] *)
Definition resample_sum (freq : Z) (rows : list (datetime * N))
    : list (datetime * N) :=
  match rows with
  | [] => []
  | _ => (fun edge => (edge, aggregate (bin_values freq rows edge)))
           <$> Pandas.bin_labels freq (index rows)
  end.

Fixpoint cumsum_from (acc : N) (col : list (datetime * N)) : list (datetime * N) :=
  match col with
  | [] => []
  | (t, v) :: col' =>
      let acc' := add acc v in (t, acc') :: cumsum_from acc' col'
  end.

(** [get_performance_history(user_id, days=180)] *)
Definition get_performance_history (bets : list (BetRow N)) (now : datetime)
    (uid : Z) (days : Z) : list DashboardService.PerformancePoint :=
  let start_date := now - Datetime.timedelta days in
  let bet_data := bet_data bets uid start_date in
  match bet_data with
  | [] => []
  | _ =>
      let resampled := resample_sum (DashboardService.freq days) bet_data in
      let resampled := cumsum_from zero resampled in
      (fun row : datetime * N =>
         {| DashboardService.date := Datetime.strftime_b_d row.1;
            DashboardService.profit := round2 row.2 |}) <$> resampled
  end.

End numbers.

(** The bet of the exact model as a row of rationals. *)
Definition exact_row (bet : Bet.t) : BetRow Q :=
  {| user_id := Bet.user_id bet;
     created_at := Bet.created_at bet;
     status := Bet.status bet;
     profit := Bet.profit bet |}.

(** *** Binary64 numbers *)

(** The double nearest to [n / d], for [n] and [d] below [2 ^ 53]: the
    value of the decimal literal of that fraction. *)
Definition double (n d : Z) : PrimFloat.float :=
  PrimFloat.div (PrimFloat.of_uint63 (Uint63.of_Z n))
                (PrimFloat.of_uint63 (Uint63.of_Z d)).

(** A sum that adds the values one after the other, starting from 0.0. *)
Definition float_sum (xs : list PrimFloat.float) : PrimFloat.float :=
  fold_left PrimFloat.add xs PrimFloat.zero.

(** The rational a finite double stands for. *)
Definition float_value (x : PrimFloat.float) : Q :=
  match FloatOps.Prim2SF x with
  | SpecFloat.S754_finite negative m e =>
      let magnitude :=
        (inject_Z (Z.pos m) * (if 0 <=? e then inject_Z (2 ^ e)
                               else / inject_Z (2 ^ (- e))))%Q in
      if negative then (- magnitude)%Q else magnitude
  | _ => 0%Q
  end.

(** [round(x, 2)] of a double, as a decimal. *)
Definition float_round2 (x : PrimFloat.float) : Q := Py.round (float_value x) 2.

(** [get_performance_history] with double precision profits. *)
Definition float_history (bets : list (BetRow PrimFloat.float)) (now : datetime)
    (uid : Z) (days : Z) : list DashboardService.PerformancePoint :=
  get_performance_history float_sum PrimFloat.zero PrimFloat.add float_round2
    bets now uid days.

End NumericHistory.

(** ** Stores used to state and to exercise the properties *)

(** The store [db] with its table of bets replaced. *)
Definition with_bets (db : Store) (bs : list Bet.t) : Store :=
  {| users := users db; bets := bs;
     subscriptions := subscriptions db; picks := picks db |}.

(** The store [db] with its table of subscriptions replaced. *)
Definition with_subscriptions (db : Store) (subs : list Subscription.t) : Store :=
  {| users := users db; bets := bets db;
     subscriptions := subs; picks := picks db |}.

(** The store after a successful purchase of [pick_id] by [user_id]. *)
Definition purchased (db : Store) (user_id pick_id : Z) : Store :=
  {| users := alter (fun u => {| User.id := User.id u;
                                 User.followers := User.followers u;
                                 User.followers_count := User.followers_count u;
                                 User.purchased_picks :=
                                   MarketplaceService.add_pick
                                     (User.purchased_picks u) pick_id |})
                    user_id (users db);
     bets := bets db;
     subscriptions := subscriptions db;
     picks := alter (fun p => {| Pick.id := Pick.id p;
                                 Pick.required_tier := Pick.required_tier p;
                                 Pick.sales := Pick.sales p + 1 |})
                    pick_id (picks db) |}.

Module Samples.

Definition bet (id user_id : Z) (created_at : datetime) (status : string)
    (profit : option Q) : Bet.t :=
  {| Bet.id := id; Bet.user_id := user_id; Bet.created_at := created_at;
     Bet.status := status; Bet.amount := 10; Bet.profit := profit;
     Bet.event_name := None |}.

Definition user (id : Z) : User.t :=
  {| User.id := id; User.followers := None; User.followers_count := None;
     User.purchased_picks := [] |}.

Definition day : Z := Datetime.MICROS_PER_DAY.
Definition hour : Z := 3600 * Datetime.MICROS_PER_SECOND.

(** User 1 won 100 ten days before day 100 and 50 forty-five days before. *)
Definition trend_db : Store :=
  {| users := {[ 1 := user 1 ]};
     bets := [bet 1 1 (55 * day) "win" (Some 50%Q);
              bet 2 1 (90 * day) "win" (Some 100%Q)];
     subscriptions := [];
     picks := ∅ |}.

Definition no_clutch_picks (db : Store) (user_id : Z)
    (start_date end_date : option datetime) : Z := 0.

Definition format_number (x : Q) : string := Py.str (Qfloor x).

(** User 1 won a bet at 10:00 of day 100 and bought a plan at 09:00. *)
Definition win_at_ten : Bet.t :=
  {| Bet.id := 1; Bet.user_id := 1; Bet.created_at := 100 * day + 10 * hour;
     Bet.status := "win"; Bet.amount := 25; Bet.profit := Some 50%Q;
     Bet.event_name := Some "Derby" |}.

Definition purchase_at_nine : Subscription.t :=
  {| Subscription.id := 1; Subscription.user_id := 1;
     Subscription.plan_name := "Gold";
     Subscription.created_at := 100 * day + 9 * hour;
     Subscription.active := true; Subscription.tier := 1 |}.

Definition feed_db : Store :=
  {| users := {[ 1 := user 1 ]};
     bets := [win_at_ten];
     subscriptions := [purchase_at_nine];
     picks := ∅ |}.

(** A shop with user 1 and pick 7, nothing pending in the session. *)
Definition shop : Store :=
  {| users := {[ 1 := user 1 ]};
     bets := [];
     subscriptions := [];
     picks := {[ 7 := {| Pick.id := 7; Pick.required_tier := 0;
                         Pick.sales := 0 |} ]} |}.

Definition shop_session : MarketplaceService.Session :=
  {| MarketplaceService.committed := shop; MarketplaceService.working := shop |}.

Definition only_raises (s0 s : MarketplaceService.step) : bool :=
  bool_decide (s = s0).

Definition never_raises (s : MarketplaceService.step) : bool := false.

(** Rows of a listing: creation time, active flag and a count. *)
Definition listing_table : list (datetime * bool * Z) :=
  [(1, true, 5); (3, true, 2); (2, false, 9)].

Definition row_created_at (r : datetime * bool * Z) : datetime := r.1.1.
Definition row_active (r : datetime * bool * Z) : bool := r.1.2.
Definition row_count (r : datetime * bool * Z) : Z := r.2.
Definition row_rating (r : datetime * bool * Z) : Q := inject_Z r.2.
Definition row_to_dict (r : datetime * bool * Z) : option Z := Some r.2.
Definition broken_to_dict (r : datetime * bool * Z) : option Z :=
  if r.2 =? 2 then None else Some r.2.


(** A user row as it is after the insert, without relationships. *)
Definition saved_user : @UserModel.User unit :=
  {| UserModel.id := Some 1;
     UserModel.username := "ann";
     UserModel.email := "ann@example.org";
     UserModel.name := "Ann";
     UserModel.password_hash := "hash";
     UserModel.created_at := Some 0;
     UserModel.profile_picture := None;
     UserModel.last_login := None;
     UserModel.subscription := None;
     UserModel.betting_stats := None |}.

Definition stats_to_dict (stats : unit) : option UserModel.json :=
  Some (UserModel.JDict []).


(** Three bets of user 1 at the same instant with double precision profits
    1.11, 2.165 and 0.15, and the same bets in another table order. *)
Definition float_bet (created_at : datetime) (n d : Z)
    : NumericHistory.BetRow PrimFloat.float :=
  {| NumericHistory.user_id := 1;
     NumericHistory.created_at := created_at;
     NumericHistory.status := "win";
     NumericHistory.profit := Some (NumericHistory.double n d) |}.

Definition tied_bets : list (NumericHistory.BetRow PrimFloat.float) :=
  [float_bet (99 * day) 111 100; float_bet (99 * day) 2165 1000;
   float_bet (99 * day) 15 100].

Definition tied_bets_rotated : list (NumericHistory.BetRow PrimFloat.float) :=
  [float_bet (99 * day) 2165 1000; float_bet (99 * day) 15 100;
   float_bet (99 * day) 111 100].

(** The same profits at three different instants. *)
Definition spread_bets : list (NumericHistory.BetRow PrimFloat.float) :=
  [float_bet (99 * day) 111 100; float_bet (99 * day + 1) 2165 1000;
   float_bet (99 * day + 2) 15 100].

Definition spread_bets_rotated : list (NumericHistory.BetRow PrimFloat.float) :=
  [float_bet (99 * day + 1) 2165 1000; float_bet (99 * day + 2) 15 100;
   float_bet (99 * day) 111 100].

End Samples.

(** * Properties *)

(** ** Percentage change, win rate and relative time *)

Lemma Qabs_nonzero (x : Q) : ~ (x == 0)%Q -> ~ (Qabs x == 0)%Q.
Proof.
  intros Hx Habs. apply Hx.
  destruct (Qlt_le_dec x 0) as [Hneg | Hpos].
  - rewrite Qabs_neg in Habs by now apply Qlt_le_weak. lra.
  - rewrite Qabs_pos in Habs by assumption. assumption.
Qed.

(** C1: the percentage change is 0 whenever the previous value is 0, whatever
    the current value, and [100 * (current - previous) / |previous|]
    otherwise. *)
Theorem percentage_change_spec (current previous : Q) :
  ((previous == 0)%Q ->
     DashboardService._calculate_percentage_change current previous = 0%Q)
  /\ (~ (previous == 0)%Q ->
        (DashboardService._calculate_percentage_change current previous
         == 100 * (current - previous) / Qabs previous)%Q).
Proof.
  unfold DashboardService._calculate_percentage_change. split; intros Hp.
  - apply Qeq_bool_iff in Hp. now rewrite Hp.
  - destruct (Qeq_bool previous 0) eqn:E.
    + apply Qeq_bool_iff in E. contradiction.
    + field. now apply Qabs_nonzero.
Qed.

Lemma percentage_change_spec_witness :
  DashboardService._calculate_percentage_change 7 0 = 0%Q
  /\ (DashboardService._calculate_percentage_change 100 50
      == 100 * (100 - 50) / Qabs 50)%Q.
Proof.
  split.
  - apply (proj1 (percentage_change_spec 7 0)). reflexivity.
  - apply (proj2 (percentage_change_spec 100 50)). discriminate.
Defined.

Lemma win_ratio_bounds (w n : nat) :
  (w <= n)%nat -> (0 < n)%nat ->
  (0 <= inject_Z (Z.of_nat w) / inject_Z (Z.of_nat n) * 100 <= 100)%Q.
Proof.
  intros Hwn Hn.
  assert (Hn' : (0 < inject_Z (Z.of_nat n))%Q).
  { change 0%Q with (inject_Z 0). rewrite <- Zlt_Qlt. lia. }
  assert (Hw : (0 <= inject_Z (Z.of_nat w))%Q).
  { change 0%Q with (inject_Z 0). rewrite <- Zle_Qle. lia. }
  assert (Hle : (inject_Z (Z.of_nat w) <= inject_Z (Z.of_nat n))%Q).
  { rewrite <- Zle_Qle. lia. }
  assert (H0 : (0 <= inject_Z (Z.of_nat w) / inject_Z (Z.of_nat n))%Q).
  { apply Qle_shift_div_l; [assumption | lra]. }
  assert (H1 : (inject_Z (Z.of_nat w) / inject_Z (Z.of_nat n) <= 1)%Q).
  { apply Qle_shift_div_r; [assumption | lra]. }
  split; lra.
Qed.

(** C7: the win rate of no bets is 0; of a non-empty sequence it is
    [100 * wins / total]; it always lies between 0 and 100. *)
Theorem win_rate_spec (B : list Bet.t) :
  let wins := length (filter (fun bet => Bet.status bet = "win") B) in
  (B = [] -> DashboardService._calculate_win_rate B = 0%Q)
  /\ (B <> [] ->
      (DashboardService._calculate_win_rate B
       == 100 * inject_Z (Z.of_nat wins) / inject_Z (Z.of_nat (length B)))%Q)
  /\ (0 <= DashboardService._calculate_win_rate B <= 100)%Q.
Proof.
  intros wins. split; [| split].
  - now intros ->.
  - intros HB. destruct B as [| b B']; [done |].
    unfold DashboardService._calculate_win_rate. fold wins.
    field. change 0%Q with (inject_Z 0). rewrite inject_Z_injective.
    simpl. lia.
  - destruct B as [| b B']; [simpl; lra |].
    unfold DashboardService._calculate_win_rate.
    apply win_ratio_bounds; [apply length_filter | simpl; lia].
Qed.

Lemma win_rate_spec_witness :
  DashboardService._calculate_win_rate [] = 0%Q
  /\ (DashboardService._calculate_win_rate
        [Samples.bet 1 1 0 "win" (Some 20%Q); Samples.bet 2 1 5 "loss" (Some (-10)%Q)]
      == 100 * inject_Z 1 / inject_Z 2)%Q.
Proof.
  split.
  - apply (proj1 (win_rate_spec [])). reflexivity.
  - apply (proj1 (proj2 (win_rate_spec
             [Samples.bet 1 1 0 "win" (Some 20%Q); Samples.bet 2 1 5 "loss" (Some (-10)%Q)]))).
    discriminate.
Defined.

(** C8: for a timestamp that is not in the future the label counts whole
    days when at least a day has elapsed, else whole hours when at least an
    hour has, else whole minutes when at least a minute has, and is
    "just now" below a minute. *)
Theorem format_relative_time_spec (now timestamp : datetime) :
  timestamp <= now ->
  let elapsed := now - timestamp in
  (Datetime.timedelta 1 <= elapsed ->
     DashboardService._format_relative_time now timestamp
     = Py.str (elapsed / Datetime.timedelta 1) +:+ "d ago")
  /\ (3600 * Datetime.MICROS_PER_SECOND <= elapsed < Datetime.timedelta 1 ->
      DashboardService._format_relative_time now timestamp
      = Py.str (elapsed / (3600 * Datetime.MICROS_PER_SECOND)) +:+ "h ago")
  /\ (60 * Datetime.MICROS_PER_SECOND <= elapsed < 3600 * Datetime.MICROS_PER_SECOND ->
      DashboardService._format_relative_time now timestamp
      = Py.str (elapsed / (60 * Datetime.MICROS_PER_SECOND)) +:+ "m ago")
  /\ (elapsed < 60 * Datetime.MICROS_PER_SECOND ->
      DashboardService._format_relative_time now timestamp = "just now").
Proof.
  intros Hle elapsed.
  assert (Hpos : 0 <= elapsed) by (unfold elapsed; lia).
  unfold DashboardService._format_relative_time. fold elapsed.
  unfold Datetime.td_days, Datetime.td_seconds, Datetime.timedelta,
    Datetime.MICROS_PER_DAY, Datetime.MICROS_PER_SECOND.
  clearbody elapsed. clear Hle.
  split; [| split; [| split]].
  - intros Hday.
    assert (0 < elapsed / 86400000000) by (apply Z.div_str_pos; lia).
    destruct (Z.ltb_spec 0 (elapsed / 86400000000)); [| lia].
    now rewrite Z.mul_1_l.
  - intros [Hhour Hday].
    rewrite (Z.div_small elapsed 86400000000) by lia.
    rewrite (Z.mod_small elapsed 86400000000) by lia.
    simpl (0 <? 0).
    assert (3600 <= elapsed / 1000000) by (apply Z.div_le_lower_bound; lia).
    destruct (Z.leb_spec 3600 (elapsed / 1000000)); [| lia].
    rewrite Z.div_div by lia. reflexivity.
  - intros [Hmin Hhour].
    rewrite (Z.div_small elapsed 86400000000) by lia.
    rewrite (Z.mod_small elapsed 86400000000) by lia.
    simpl (0 <? 0).
    assert (elapsed / 1000000 < 3600) by (apply Z.div_lt_upper_bound; lia).
    assert (60 <= elapsed / 1000000) by (apply Z.div_le_lower_bound; lia).
    destruct (Z.leb_spec 3600 (elapsed / 1000000)); [lia |].
    destruct (Z.leb_spec 60 (elapsed / 1000000)); [| lia].
    rewrite Z.div_div by lia. reflexivity.
  - intros Hmin.
    rewrite (Z.div_small elapsed 86400000000) by lia.
    rewrite (Z.mod_small elapsed 86400000000) by lia.
    simpl (0 <? 0).
    assert (elapsed / 1000000 < 60) by (apply Z.div_lt_upper_bound; lia).
    destruct (Z.leb_spec 3600 (elapsed / 1000000)); [lia |].
    destruct (Z.leb_spec 60 (elapsed / 1000000)); [lia |].
    reflexivity.
Qed.

Lemma format_relative_time_spec_witness :
  DashboardService._format_relative_time 176400000000 0 = "2d ago"
  /\ DashboardService._format_relative_time 7300000000 0 = "2h ago"
  /\ DashboardService._format_relative_time 125000000 0 = "2m ago"
  /\ DashboardService._format_relative_time 59999999 0 = "just now".
Proof.
  split; [| split; [| split]].
  - apply (proj1 (format_relative_time_spec 176400000000 0 ltac:(lia))).
    vm_compute. discriminate.
  - apply (proj1 (proj2 (format_relative_time_spec 7300000000 0 ltac:(lia)))).
    vm_compute. split; [discriminate | reflexivity].
  - apply (proj1 (proj2 (proj2 (format_relative_time_spec 125000000 0 ltac:(lia))))).
    vm_compute. split; [discriminate | reflexivity].
  - apply (proj2 (proj2 (proj2 (format_relative_time_spec 59999999 0 ltac:(lia))))).
    vm_compute. reflexivity.
Defined.

(** ** Profit sums *)

Lemma omap_filter_insert_skipped {A B} (f : A -> option B) (P : A -> Prop)
    `{!forall x, Decision (P x)} (pre post : list A) (x : A) :
  f x = None \/ ~ P x ->
  omap f (filter P (pre ++ x :: post)) = omap f (filter P (pre ++ post)).
Proof.
  intros Hx. rewrite !filter_app, filter_cons, !omap_app.
  f_equal. destruct (decide (P x)) as [HP | HP]; [| reflexivity].
  destruct Hx as [Hx | Hx]; [| contradiction].
  simpl. now rewrite Hx.
Qed.

(** C2: a bet without a profit value, like a pending bet, does not enter the
    profit sums: inserting one anywhere in the table of bets changes neither
    the period profit nor the total profit of [get_user_metrics]. *)
Theorem profit_sums_skip_bets_without_profit
    (get_clutch_picks_count : Store -> Z -> option datetime -> option datetime -> Z)
    (db : Store) (now : datetime) (user_id : Z)
    (start_date : datetime) (end_date : option datetime)
    (pre post : list Bet.t) (bet : Bet.t) :
  Bet.profit bet = None \/ Bet.status bet = "pending" ->
  DashboardService._calculate_period_profit
    (with_bets db (pre ++ bet :: post)) user_id start_date end_date
  = DashboardService._calculate_period_profit
      (with_bets db (pre ++ post)) user_id start_date end_date
  /\ DashboardService.totalProfit <$>
       DashboardService.get_user_metrics get_clutch_picks_count
         (with_bets db (pre ++ bet :: post)) now user_id
     = DashboardService.totalProfit <$>
         DashboardService.get_user_metrics get_clutch_picks_count
           (with_bets db (pre ++ post)) now user_id.
Proof.
  intros Hbet. split.
  - unfold DashboardService._calculate_period_profit, DashboardService.profit_sum.
    unfold DashboardService.period_bets. simpl. f_equal.
    destruct end_date as [e |].
    + rewrite !list_filter_filter. apply omap_filter_insert_skipped. tauto.
    + apply omap_filter_insert_skipped. tauto.
  - unfold DashboardService.get_user_metrics. simpl.
    destruct (users db !! user_id) as [user |]; [| reflexivity].
    simpl. unfold DashboardService.profit_sum.
    rewrite !list_filter_filter.
    rewrite (omap_filter_insert_skipped Bet.profit _ pre post bet) by tauto.
    reflexivity.
Qed.

Lemma profit_sums_skip_bets_without_profit_witness :
  DashboardService._calculate_period_profit
    (with_bets Samples.trend_db
       ([Samples.bet 1 1 (55 * Samples.day) "win" (Some 50%Q)]
        ++ Samples.bet 3 1 (95 * Samples.day) "loss" None
        :: [Samples.bet 2 1 (90 * Samples.day) "win" (Some 100%Q)]))
    1 0 None
  = DashboardService._calculate_period_profit
      (with_bets Samples.trend_db
         ([Samples.bet 1 1 (55 * Samples.day) "win" (Some 50%Q)]
          ++ [Samples.bet 2 1 (90 * Samples.day) "win" (Some 100%Q)]))
      1 0 None.
Proof.
  apply (proj1 (profit_sums_skip_bets_without_profit Samples.no_clutch_picks
                  Samples.trend_db 0 1 0 None
                  [Samples.bet 1 1 (55 * Samples.day) "win" (Some 50%Q)]
                  [Samples.bet 2 1 (90 * Samples.day) "win" (Some 100%Q)]
                  (Samples.bet 3 1 (95 * Samples.day) "loss" None)
                  (or_introl eq_refl))).
Defined.

(** ** Trend *)

Lemma percentage_change_100_50 (current previous : Q) :
  (current == 100)%Q -> (previous == 50)%Q ->
  (DashboardService._calculate_percentage_change current previous == 100)%Q.
Proof.
  intros Hc Hp. unfold DashboardService._calculate_percentage_change.
  destruct (Qeq_bool previous 0) eqn:E.
  - apply Qeq_bool_iff in E. rewrite Hp in E. discriminate.
  - rewrite Hc, Hp. reflexivity.
Qed.

(** C3: the trend is the percentage change from the metric over the
    previous window, which starts [previous_period_days] ago and ends where
    the current window starts, to the metric over the current window, which
    starts [current_period_days] ago and has no end; for the two period
    metrics these windows select the settled bets of the user created in
    them; a current value of 100 against a previous value of 50 gives 100. *)
Theorem trend_metric_spec (db : Store) (now : datetime) (user_id : Z)
    (metric_func : Store -> Z -> datetime -> option datetime -> Q)
    (current_period_days previous_period_days : Z) :
  current_period_days < previous_period_days ->
  let current_start := now - Datetime.timedelta current_period_days in
  let previous_start := now - Datetime.timedelta previous_period_days in
  let current_value := metric_func db user_id current_start None in
  let previous_value := metric_func db user_id previous_start (Some current_start) in
  DashboardService._calculate_trend_metric db now user_id metric_func
    current_period_days previous_period_days
  = DashboardService._calculate_percentage_change current_value previous_value
  /\ previous_start < current_start
  /\ (forall bet,
        bet ∈ DashboardService.period_bets db user_id current_start None
        <-> bet ∈ bets db /\ Bet.user_id bet = user_id
            /\ Bet.status bet <> "pending"
            /\ current_start <= Bet.created_at bet)
  /\ (forall bet,
        bet ∈ DashboardService.period_bets db user_id previous_start (Some current_start)
        <-> bet ∈ bets db /\ Bet.user_id bet = user_id
            /\ Bet.status bet <> "pending"
            /\ previous_start <= Bet.created_at bet < current_start)
  /\ ((current_value == 100)%Q -> (previous_value == 50)%Q ->
      (DashboardService._calculate_trend_metric db now user_id metric_func
         current_period_days previous_period_days == 100)%Q).
Proof.
  intros Hdays current_start previous_start current_value previous_value.
  split; [reflexivity |]. split.
  { unfold current_start, previous_start, Datetime.timedelta,
      Datetime.MICROS_PER_DAY. lia. }
  split; [| split].
  - intros bet. unfold DashboardService.period_bets.
    rewrite list_elem_of_filter. tauto.
  - intros bet. unfold DashboardService.period_bets.
    rewrite !list_elem_of_filter. tauto.
  - intros Hc Hp. now apply percentage_change_100_50.
Qed.

Lemma trend_metric_spec_witness :
  (DashboardService._calculate_trend_metric Samples.trend_db (100 * Samples.day) 1
     DashboardService._calculate_period_profit 30 60 == 100)%Q.
Proof.
  apply (proj2 (proj2 (proj2 (proj2
    (trend_metric_spec Samples.trend_db (100 * Samples.day) 1
       DashboardService._calculate_period_profit 30 60 ltac:(lia)))))).
  - vm_compute. reflexivity.
  - vm_compute. reflexivity.
Defined.

(** ** Unknown users *)

(** C9: [get_user_metrics] returns [None] exactly when no user record has
    the given id; for an existing user it returns a snapshot, also when the
    user has no activity at all. *)
Theorem get_user_metrics_unknown_user
    (get_clutch_picks_count : Store -> Z -> option datetime -> option datetime -> Z)
    (db : Store) (now : datetime) (user_id : Z) :
  (users db !! user_id = None ->
     DashboardService.get_user_metrics get_clutch_picks_count db now user_id = None)
  /\ (is_Some (users db !! user_id) ->
      is_Some (DashboardService.get_user_metrics get_clutch_picks_count db now user_id)).
Proof.
  unfold DashboardService.get_user_metrics. split.
  - now intros ->.
  - intros [user ->]. eauto.
Qed.

Lemma get_user_metrics_unknown_user_witness :
  DashboardService.get_user_metrics Samples.no_clutch_picks Samples.trend_db 0 2 = None
  /\ is_Some (DashboardService.get_user_metrics Samples.no_clutch_picks
                (with_bets Samples.trend_db []) 0 1).
Proof.
  split.
  - apply (proj1 (get_user_metrics_unknown_user Samples.no_clutch_picks
                    Samples.trend_db 0 2)).
    reflexivity.
  - apply (proj2 (get_user_metrics_unknown_user Samples.no_clutch_picks
                    (with_bets Samples.trend_db []) 0 1)).
    vm_compute. eauto.
Defined.

(** ** Sorting *)

Section sorted_facts.
Context {A : Type} (key : A -> Z) (reverse : bool).

Lemma insort_Permutation (before : A -> A -> bool) (x : A) (l : list A) :
  Py.insort before x l ≡ₚ x :: l.
Proof.
  induction l as [| y l IH]; simpl; [reflexivity |].
  destruct (before x y); [reflexivity |].
  rewrite IH. apply perm_swap.
Qed.

Lemma sorted_Permutation (l : list A) : Py.sorted key reverse l ≡ₚ l.
Proof.
  unfold Py.sorted. induction l as [| x l IH]; simpl; [reflexivity |].
  now rewrite insort_Permutation, IH.
Qed.

Lemma in_order_trans (x y z : A) :
  Py.in_order key reverse x y -> Py.in_order key reverse y z ->
  Py.in_order key reverse x z.
Proof. unfold Py.in_order. destruct reverse; lia. Qed.

Lemma insort_StronglySorted (x : A) (l : list A) :
  StronglySorted (Py.in_order key reverse) l ->
  StronglySorted (Py.in_order key reverse)
    (Py.insort (fun x y => if reverse then key y <=? key x else key x <=? key y) x l).
Proof.
  induction 1 as [| y l Hl IH Hy]; simpl.
  - repeat constructor.
  - destruct (if reverse then key y <=? key x else key x <=? key y) eqn:E.
    + assert (Hxy : Py.in_order key reverse x y).
      { unfold Py.in_order. destruct reverse; lia. }
      constructor; [now constructor |].
      constructor; [assumption |].
      eapply Forall_impl; [exact Hy |].
      intros z Hz. now apply in_order_trans with y.
    + assert (Hyx : Py.in_order key reverse y x).
      { unfold Py.in_order. destruct reverse; lia. }
      constructor; [assumption |].
      rewrite insort_Permutation. now constructor.
Qed.

Lemma sorted_StronglySorted (l : list A) :
  StronglySorted (Py.in_order key reverse) (Py.sorted key reverse l).
Proof.
  unfold Py.sorted. induction l as [| x l IH]; simpl.
  - constructor.
  - now apply insort_StronglySorted.
Qed.

End sorted_facts.

(** ** Activity feed *)

Lemma date_key_bet_activity (format_number : Q -> string) (now : datetime)
    (bet : Bet.t) :
  DashboardService.date_key (DashboardService.bet_activity format_number now bet)
  = Bet.created_at bet.
Proof. reflexivity. Qed.

Lemma date_key_subscription_activity (now : datetime) (sub : Subscription.t) :
  DashboardService.date_key (DashboardService.subscription_activity now sub)
  = Subscription.created_at sub.
Proof. reflexivity. Qed.

Lemma length_sorted {A} (key : A -> Z) (reverse : bool) (l : list A) :
  length (Py.sorted key reverse l) = length l.
Proof. apply Permutation_length, sorted_Permutation. Qed.

Lemma sorted_newest_first {A} (key : A -> Z) (n : nat) (l : list A) (x y : A) :
  x ∈ take n (Py.sorted key true l) -> y ∈ drop n (Py.sorted key true l) ->
  key y <= key x.
Proof.
  intros Hx Hy.
  pose proof (sorted_StronglySorted key true l) as Hsorted.
  rewrite <- (take_drop n (Py.sorted key true l)) in Hsorted.
  exact (StronglySorted_app_1_elem_of _ _ _ x y Hsorted Hx Hy).
Qed.

(** C6: the feed is made of the [limit] most recent bets and the three most
    recent subscriptions of the user, merged and ordered by decreasing
    timestamp of the event itself, cut to [limit] items; every item carries
    the relative-time label of its event and no "date" entry; a user with
    one won bet and one earlier purchase gets, for [limit = 1], the win
    alone, with its label and no "date". *)
Theorem recent_activity_spec (format_number : Q -> string) (db : Store)
    (now : datetime) (user_id : Z) (limit : nat) :
  let user_bets := filter (fun bet => Bet.user_id bet = user_id) (bets db) in
  let user_subs :=
    filter (fun sub => Subscription.user_id sub = user_id) (subscriptions db) in
  let feed := DashboardService.get_recent_activity format_number db now user_id limit in
  (exists (recent_bets older_bets : list Bet.t)
          (recent_subs older_subs : list Subscription.t)
          (events : list (datetime * dict)),
      recent_bets ++ older_bets ≡ₚ user_bets
      /\ length recent_bets = (limit `min` length user_bets)%nat
      /\ (forall b b', b ∈ recent_bets -> b' ∈ older_bets ->
            Bet.created_at b' <= Bet.created_at b)
      /\ recent_subs ++ older_subs ≡ₚ user_subs
      /\ length recent_subs = (3 `min` length user_subs)%nat
      /\ (forall s s', s ∈ recent_subs -> s' ∈ older_subs ->
            Subscription.created_at s' <= Subscription.created_at s)
      /\ events
         ≡ₚ ((fun b => (Bet.created_at b,
                        delete "date" (DashboardService.bet_activity format_number now b)))
               <$> recent_bets)
            ++ ((fun s => (Subscription.created_at s,
                           delete "date" (DashboardService.subscription_activity now s)))
                  <$> recent_subs)
      /\ StronglySorted (fun e e' : datetime * dict => e'.1 <= e.1) events
      /\ feed = take limit (events.*2))
  /\ (forall b,
        delete "date" (DashboardService.bet_activity format_number now b) !! "time"
        = Some (VStr (DashboardService._format_relative_time now (Bet.created_at b))))
  /\ (forall s,
        delete "date" (DashboardService.subscription_activity now s) !! "time"
        = Some (VStr (DashboardService._format_relative_time now
                        (Subscription.created_at s)))
        /\ delete "date" (DashboardService.subscription_activity now s) !! "type"
           = Some (VStr "purchase"))
  /\ (length feed <= limit)%nat
  /\ Forall (fun item : dict => item !! "date" = None) feed
  /\ (forall bet sub,
        user_bets = [bet] -> user_subs = [sub] ->
        Bet.status bet = "win" ->
        Subscription.created_at sub < Bet.created_at bet ->
        exists item,
          DashboardService.get_recent_activity format_number db now user_id 1 = [item]
          /\ item !! "type" = Some (VStr "win")
          /\ item !! "time"
             = Some (VStr (DashboardService._format_relative_time now (Bet.created_at bet)))
          /\ item !! "date" = None).
Proof.
  intros user_bets user_subs feed.
  split; [| split; [| split; [| split; [| split]]]].
  - set (sorted_bets := Py.sorted Bet.created_at true user_bets).
    set (sorted_subs := Py.sorted Subscription.created_at true user_subs).
    exists (take limit sorted_bets), (drop limit sorted_bets),
      (take 3 sorted_subs), (drop 3 sorted_subs),
      ((fun a => (DashboardService.date_key a, delete "date" a))
         <$> Py.sorted DashboardService.date_key true
               (DashboardService.activities format_number db now user_id limit)).
    split; [| split; [| split; [| split; [| split; [| split; [| split; [| split]]]]]]].
    + rewrite take_drop. apply sorted_Permutation.
    + unfold sorted_bets. now rewrite length_take, length_sorted.
    + intros b b'. apply sorted_newest_first.
    + rewrite take_drop. apply sorted_Permutation.
    + unfold sorted_subs. now rewrite length_take, length_sorted.
    + intros s s'. apply sorted_newest_first.
    + rewrite sorted_Permutation. unfold DashboardService.activities.
      fold user_bets user_subs sorted_bets sorted_subs.
      now rewrite fmap_app, <- !list_fmap_compose.
    + apply (StronglySorted_fmap _ (Py.in_order DashboardService.date_key true));
        [| apply sorted_StronglySorted].
      intros a a' Hin. exact Hin.
    + unfold feed, DashboardService.get_recent_activity.
      now rewrite <- list_fmap_compose.
  - intros b. reflexivity.
  - intros s. split; reflexivity.
  - unfold feed, DashboardService.get_recent_activity.
    rewrite length_take. lia.
  - unfold feed, DashboardService.get_recent_activity.
    apply Forall_take, Forall_fmap, Forall_forall.
    intros a _. apply lookup_delete_eq.
  - intros bet sub Hbets Hsubs Hwin Hlt.
    exists (delete "date" (DashboardService.bet_activity format_number now bet)).
    split; [| split; [| split]].
    + unfold DashboardService.get_recent_activity, DashboardService.activities.
      fold user_bets user_subs. rewrite Hbets, Hsubs. unfold Py.sorted. simpl.
      rewrite date_key_bet_activity, date_key_subscription_activity.
      destruct (Z.leb_spec (Subscription.created_at sub) (Bet.created_at bet)); [| lia].
      reflexivity.
    + rewrite lookup_delete_ne by done.
      unfold DashboardService.bet_activity. rewrite lookup_insert_eq.
      rewrite Hwin. reflexivity.
    + reflexivity.
    + apply lookup_delete_eq.
Qed.

(** ** Resampling *)

Lemma foldr_min_spec (a : Z) (l : list (datetime * Q)) :
  let m := foldr (fun r' m => Z.min r'.1 m) a l in
  m <= a /\ (forall r, r ∈ l -> m <= r.1) /\ (m = a \/ exists r, r ∈ l /\ r.1 = m).
Proof.
  induction l as [| r l IH]; simpl.
  - split; [lia |]. split; [| now left]. intros r Hr. inversion Hr.
  - destruct IH as (Ha & Hall & Hex). split; [lia |]. split.
    + intros r' Hr'. apply elem_of_cons in Hr' as [-> | Hr']; [lia |].
      specialize (Hall r' Hr'). lia.
    + destruct (Z.min_spec r.1 (foldr (fun r' m => Z.min r'.1 m) a l))
        as [[_ ->] | [_ ->]].
      * right. exists r. split; [apply elem_of_cons; now left | reflexivity].
      * destruct Hex as [Hex | (r' & Hr' & Heq)]; [now left |].
        right. exists r'. split; [apply elem_of_cons; now right | assumption].
Qed.

Lemma foldr_max_spec (a : Z) (l : list (datetime * Q)) :
  let m := foldr (fun r' m => Z.max r'.1 m) a l in
  a <= m /\ (forall r, r ∈ l -> r.1 <= m) /\ (m = a \/ exists r, r ∈ l /\ r.1 = m).
Proof.
  induction l as [| r l IH]; simpl.
  - split; [lia |]. split; [| now left]. intros r Hr. inversion Hr.
  - destruct IH as (Ha & Hall & Hex). split; [lia |]. split.
    + intros r' Hr'. apply elem_of_cons in Hr' as [-> | Hr']; [lia |].
      specialize (Hall r' Hr'). lia.
    + destruct (Z.max_spec r.1 (foldr (fun r' m => Z.max r'.1 m) a l))
        as [[_ ->] | [_ ->]].
      * destruct Hex as [Hex | (r' & Hr' & Heq)]; [now left |].
        right. exists r'. split; [apply elem_of_cons; now right | assumption].
      * right. exists r. split; [apply elem_of_cons; now left | reflexivity].
Qed.

Lemma index_min_spec (rows : list (datetime * Q)) :
  rows <> [] ->
  (forall r, r ∈ rows -> Pandas.index_min rows <= r.1)
  /\ exists r, r ∈ rows /\ r.1 = Pandas.index_min rows.
Proof.
  destruct rows as [| r0 rows]; [done |]. intros _. simpl.
  destruct (foldr_min_spec r0.1 rows) as (Ha & Hall & Hex). split.
  - intros r Hr. apply elem_of_cons in Hr as [-> | Hr]; [assumption | now apply Hall].
  - destruct Hex as [-> | (r & Hr & Heq)].
    + exists r0. split; [apply elem_of_cons; now left | reflexivity].
    + exists r. split; [apply elem_of_cons; now right | assumption].
Qed.

Lemma index_max_spec (rows : list (datetime * Q)) :
  rows <> [] ->
  (forall r, r ∈ rows -> r.1 <= Pandas.index_max rows)
  /\ exists r, r ∈ rows /\ r.1 = Pandas.index_max rows.
Proof.
  destruct rows as [| r0 rows]; [done |]. intros _. simpl.
  destruct (foldr_max_spec r0.1 rows) as (Ha & Hall & Hex). split.
  - intros r Hr. apply elem_of_cons in Hr as [-> | Hr]; [assumption | now apply Hall].
  - destruct Hex as [-> | (r & Hr & Heq)].
    + exists r0. split; [apply elem_of_cons; now left | reflexivity].
    + exists r. split; [apply elem_of_cons; now right | assumption].
Qed.

Lemma index_min_le_max (rows : list (datetime * Q)) :
  rows <> [] -> Pandas.index_min rows <= Pandas.index_max rows.
Proof.
  intros Hrows.
  destruct (index_min_spec rows Hrows) as [_ (r & Hr & <-)].
  now apply index_max_spec.
Qed.

Lemma normalize_bounds (t : datetime) :
  Pandas.normalize t <= t < Pandas.normalize t + Datetime.MICROS_PER_DAY.
Proof.
  unfold Pandas.normalize, Datetime.MICROS_PER_DAY.
  pose proof (Z.mod_pos_bound t 86400000000). lia.
Qed.

Lemma freq_cases (days : Z) :
  (days <= 30 -> DashboardService.freq days = Datetime.timedelta 1)
  /\ (30 < days <= 90 -> DashboardService.freq days = Datetime.timedelta 7)
  /\ (90 < days -> DashboardService.freq days = Datetime.timedelta 15).
Proof.
  unfold DashboardService.freq.
  destruct (Z.leb_spec days 30), (Z.leb_spec days 90).
  all: split; [| split]; intros; first [exfalso; lia | reflexivity].
Qed.

Lemma freq_at_least_a_day (days : Z) :
  Datetime.MICROS_PER_DAY <= DashboardService.freq days.
Proof.
  unfold DashboardService.freq, Datetime.timedelta, Datetime.MICROS_PER_DAY.
  destruct (days <=? 30), (days <=? 90); lia.
Qed.

(** The bins start at midnight of the first day and reach the bin of the
    last timestamp. *)
Lemma range_edges_start_day (width first last : datetime) :
  Datetime.MICROS_PER_DAY <= width -> first <= last ->
  let origin := Pandas.normalize first in
  Pandas.range_edges width first last
  = (origin, origin + ((last - origin) / width + 1) * width).
Proof.
  intros Hw Hfl origin. unfold Pandas.range_edges. fold origin.
  pose proof (normalize_bounds first) as Hn. fold origin in Hn.
  unfold Datetime.MICROS_PER_DAY in *.
  rewrite (Z.mod_small (first - origin) width) by lia.
  pose proof (Z.div_mod (last - origin) width ltac:(lia)) as Hdm.
  pose proof (Z.mod_pos_bound (last - origin) width ltac:(lia)) as Hmod.
  f_equal.
  - destruct (Z.ltb_spec 0 (first - origin)); lia.
  - destruct (Z.ltb_spec 0 ((last - origin) mod width)); lia.
Qed.

Lemma bin_labels_start_day (width : Z) (rows : list (datetime * Q)) :
  Datetime.MICROS_PER_DAY <= width -> rows <> [] ->
  let origin := Pandas.normalize (Pandas.index_min rows) in
  Pandas.bin_labels width rows
  = (fun k : nat => origin + Z.of_nat k * width)
      <$> seq 0 (Z.to_nat ((Pandas.index_max rows - origin) / width) + 1).
Proof.
  intros Hw Hrows origin. unfold Pandas.bin_labels.
  rewrite range_edges_start_day by (try apply index_min_le_max; assumption).
  fold origin. f_equal. f_equal.
  pose proof (normalize_bounds (Pandas.index_min rows)) as Hn. fold origin in Hn.
  pose proof (index_min_le_max rows Hrows).
  unfold Datetime.MICROS_PER_DAY in *.
  replace (origin + ((Pandas.index_max rows - origin) / width + 1) * width - origin)
    with (((Pandas.index_max rows - origin) / width + 1) * width) by lia.
  rewrite Z.div_mul by lia.
  assert (0 <= (Pandas.index_max rows - origin) / width)
    by (apply Z.div_pos; lia).
  lia.
Qed.

Lemma length_cumsum_from (acc : Q) (col : list (datetime * Q)) :
  length (Pandas.cumsum_from acc col) = length col.
Proof.
  revert acc. induction col as [| [t v] col IH]; intros acc; simpl; [done |].
  now rewrite IH.
Qed.

Lemma lookup_cumsum_from (acc : Q) (col : list (datetime * Q)) (k : nat)
    (t : datetime) (v : Q) :
  col !! k = Some (t, v) ->
  Pandas.cumsum_from acc col !! k
  = Some (t, fold_left Qplus (snd <$> take (S k) col) acc).
Proof.
  revert acc k. induction col as [| [t' v'] col IH]; intros acc k Hk; [done |].
  destruct k as [| k]; simpl in *.
  - injection Hk as -> ->. reflexivity.
  - now rewrite (IH _ _ Hk).
Qed.

Lemma bin_sum_empty (width : Z) (rows : list (datetime * Q)) (edge : datetime) :
  (forall r, r ∈ rows -> ~ (edge <= r.1 < edge + width)) ->
  Pandas.bin_sum width rows edge = 0%Q.
Proof.
  intros Hnone. unfold Pandas.bin_sum.
  replace (filter (fun r : datetime * Q => edge <= r.1 /\ r.1 < edge + width) rows)
    with (@nil (datetime * Q)); [reflexivity |].
  symmetry. induction rows as [| r rows IH]; [reflexivity |].
  rewrite filter_cons. destruct (decide (edge <= r.1 /\ r.1 < edge + width)) as [Hin | _].
  - exfalso. apply (Hnone r); [apply elem_of_cons; now left | assumption].
  - apply IH. intros r' Hr'. apply Hnone. apply elem_of_cons. now right.
Qed.

Lemma resample_sum_start_day (width : Z) (rows : list (datetime * Q)) :
  Datetime.MICROS_PER_DAY <= width -> rows <> [] ->
  let origin := Pandas.normalize (Pandas.index_min rows) in
  Pandas.resample_sum width rows
  = (fun k : nat => (origin + Z.of_nat k * width,
                     Pandas.bin_sum width rows (origin + Z.of_nat k * width)))
      <$> seq 0 (Z.to_nat ((Pandas.index_max rows - origin) / width) + 1).
Proof.
  intros Hw Hrows origin.
  assert (Hlabels : Pandas.resample_sum width rows
                    = (fun edge => (edge, Pandas.bin_sum width rows edge))
                        <$> Pandas.bin_labels width rows)
    by (destruct rows; done).
  rewrite Hlabels, bin_labels_start_day by assumption.
  now rewrite <- list_fmap_compose.
Qed.

(** C4: the bucket width is 1, 7 or 15 days according to the horizon, and
    for a non-empty input the output has one point for every bucket of that
    width from midnight of the earliest day up to the bucket of the latest
    timestamp, in chronological order, each carrying the running total of
    the bucket sums; a bucket without bets sums to 0 and is still there. *)
Theorem performance_history_buckets (db : Store) (now : datetime) (user_id : Z)
    (days : Z) :
  let rows := DashboardService.bet_data db user_id (now - Datetime.timedelta days) in
  let width := DashboardService.freq days in
  let history := DashboardService.get_performance_history db now user_id days in
  ((days <= 30 -> width = Datetime.timedelta 1)
   /\ (30 < days <= 90 -> width = Datetime.timedelta 7)
   /\ (90 < days -> width = Datetime.timedelta 15))
  /\ (rows <> [] ->
      let first := Pandas.index_min rows in
      let last := Pandas.index_max rows in
      let origin := Pandas.normalize first in
      let n := (Z.to_nat ((last - origin) / width) + 1)%nat in
      let edge (k : nat) := origin + Z.of_nat k * width in
      0 < width
      /\ (forall r, r ∈ rows -> first <= r.1 <= last)
      /\ edge 0%nat <= first < edge 1%nat
      /\ edge (n - 1)%nat <= last < edge n
      /\ length history = n
      /\ (forall k, (k < n)%nat ->
            history !! k
            = Some {| DashboardService.date := Datetime.strftime_b_d (edge k);
                      DashboardService.profit :=
                        Py.round
                          (Py.sum ((fun j => Pandas.bin_sum width rows (edge j))
                                   <$> seq 0 (S k))) 2 |})
      /\ (forall k, (forall r, r ∈ rows -> ~ (edge k <= r.1 < edge k + width)) ->
            Pandas.bin_sum width rows (edge k) = 0%Q)).
Proof.
  intros rows width history. split; [apply freq_cases |].
  intros Hrows first last origin n edge.
  pose proof (freq_at_least_a_day days) as Hw. fold width in Hw.
  pose proof (normalize_bounds first) as Hn. fold origin in Hn.
  pose proof (index_min_le_max rows Hrows) as Hfl. fold first last in Hfl.
  assert (Hwpos : 0 < width) by (unfold Datetime.MICROS_PER_DAY in Hw; lia).
  assert (Hq : 0 <= (last - origin) / width) by (apply Z.div_pos; lia).
  assert (Hresampled :
    Pandas.resample_sum width rows
    = (fun k : nat => (edge k, Pandas.bin_sum width rows (edge k))) <$> seq 0 n).
  { now apply resample_sum_start_day. }
  assert (Hhistory :
    history
    = (fun row : datetime * Q =>
         {| DashboardService.date := Datetime.strftime_b_d row.1;
            DashboardService.profit := Py.round row.2 2 |})
        <$> Pandas.cumsum (Pandas.resample_sum width rows)).
  { unfold history, DashboardService.get_performance_history. fold rows width.
    clear -Hrows. destruct rows; [done | reflexivity]. }
  split; [assumption |]. split.
  { intros r Hr. split; [now apply index_min_spec | now apply index_max_spec]. }
  split.
  { unfold edge. unfold Datetime.MICROS_PER_DAY in *. lia. }
  split.
  { unfold edge, n.
    pose proof (Z.div_mod (last - origin) width ltac:(lia)) as Hdm.
    pose proof (Z.mod_pos_bound (last - origin) width Hwpos) as Hmod.
    replace (Z.of_nat (Z.to_nat ((last - origin) / width) + 1 - 1))
      with ((last - origin) / width) by lia.
    replace (Z.of_nat (Z.to_nat ((last - origin) / width) + 1))
      with ((last - origin) / width + 1) by lia.
    lia. }
  split.
  { rewrite Hhistory, length_fmap. unfold Pandas.cumsum.
    now rewrite length_cumsum_from, Hresampled, length_fmap, length_seq. }
  split.
  - intros k Hk. rewrite Hhistory, list_lookup_fmap. unfold Pandas.cumsum.
    rewrite (lookup_cumsum_from _ _ k (edge k) (Pandas.bin_sum width rows (edge k))).
    + simpl. do 3 f_equal. unfold Py.sum. f_equal.
      rewrite Hresampled, <- fmap_take, <- list_fmap_compose.
      now rewrite take_seq, Nat.min_l by lia.
    + rewrite Hresampled, list_lookup_fmap, lookup_seq_lt by assumption.
      reflexivity.
  - intros k. apply bin_sum_empty.
Qed.

Lemma performance_history_buckets_witness :
  DashboardService.freq 60 = Datetime.timedelta 7
  /\ length (DashboardService.get_performance_history
               Samples.trend_db (100 * Samples.day) 1 60) = 6%nat.
Proof.
  pose proof (performance_history_buckets Samples.trend_db (100 * Samples.day) 1 60)
    as [(_ & Hwidth & _) Hbuckets].
  split.
  - apply Hwidth. lia.
  - destruct (Hbuckets ltac:(vm_compute; discriminate))
      as (_ & _ & _ & _ & Hlength & _).
    vm_compute in Hlength |- *. exact Hlength.
Defined.

(** ** Order of arrival *)

Lemma fold_left_Qplus_proper (l : list Q) (a b : Q) :
  (a == b)%Q -> (fold_left Qplus l a == fold_left Qplus l b)%Q.
Proof.
  revert a b. induction l as [| x l IH]; intros a b Hab; simpl; [assumption |].
  apply IH. now rewrite Hab.
Qed.

Lemma fold_left_Qplus_Permutation (l l' : list Q) (a : Q) :
  l ≡ₚ l' -> (fold_left Qplus l a == fold_left Qplus l' a)%Q.
Proof.
  intros Hperm. revert a.
  induction Hperm as [| x l l' _ IH | x y l | l l' l'' _ IH1 _ IH2]; intros a; simpl.
  - reflexivity.
  - apply IH.
  - apply fold_left_Qplus_proper. ring.
  - now rewrite IH1.
Qed.

Lemma sum_Permutation (l l' : list Q) : l ≡ₚ l' -> (Py.sum l == Py.sum l')%Q.
Proof. apply fold_left_Qplus_Permutation. Qed.

Lemma round_half_even_proper (x y : Q) :
  (x == y)%Q -> Py.round_half_even x = Py.round_half_even y.
Proof.
  intros Hxy. unfold Py.round_half_even.
  rewrite (Qfloor_comp x y Hxy).
  assert (Hd : (x - inject_Z (Qfloor y) == y - inject_Z (Qfloor y))%Q)
    by now rewrite Hxy.
  now rewrite Hd.
Qed.

Lemma round_proper (x y : Q) (ndigits : nat) :
  (x == y)%Q -> Py.round x ndigits = Py.round y ndigits.
Proof.
  intros Hxy. unfold Py.round. destruct ndigits as [| n].
  - now rewrite (round_half_even_proper x y).
  - f_equal. apply round_half_even_proper. now rewrite Hxy.
Qed.

Lemma index_min_Permutation (rows rows' : list (datetime * Q)) :
  rows ≡ₚ rows' -> Pandas.index_min rows = Pandas.index_min rows'.
Proof.
  intros Hperm. destruct rows as [| r rows0] eqn:E.
  { apply Permutation_nil_l in Hperm. now subst. }
  rewrite <- E in *.
  assert (Hrows : rows <> []) by (rewrite E; done).
  assert (Hrows' : rows' <> []).
  { intros ->. apply Permutation_nil_r in Hperm. done. }
  destruct (index_min_spec rows Hrows) as [Hle (r1 & Hr1 & Heq1)].
  destruct (index_min_spec rows' Hrows') as [Hle' (r2 & Hr2 & Heq2)].
  rewrite Hperm in Hr1. rewrite <- Hperm in Hr2.
  specialize (Hle r2 Hr2). specialize (Hle' r1 Hr1). lia.
Qed.

Lemma index_max_Permutation (rows rows' : list (datetime * Q)) :
  rows ≡ₚ rows' -> Pandas.index_max rows = Pandas.index_max rows'.
Proof.
  intros Hperm. destruct rows as [| r rows0] eqn:E.
  { apply Permutation_nil_l in Hperm. now subst. }
  rewrite <- E in *.
  assert (Hrows : rows <> []) by (rewrite E; done).
  assert (Hrows' : rows' <> []).
  { intros ->. apply Permutation_nil_r in Hperm. done. }
  destruct (index_max_spec rows Hrows) as [Hle (r1 & Hr1 & Heq1)].
  destruct (index_max_spec rows' Hrows') as [Hle' (r2 & Hr2 & Heq2)].
  rewrite Hperm in Hr1. rewrite <- Hperm in Hr2.
  specialize (Hle r2 Hr2). specialize (Hle' r1 Hr1). lia.
Qed.

Lemma bin_sum_Permutation (width : Z) (rows rows' : list (datetime * Q))
    (edge : datetime) :
  rows ≡ₚ rows' ->
  (Pandas.bin_sum width rows edge == Pandas.bin_sum width rows' edge)%Q.
Proof.
  intros Hperm. unfold Pandas.bin_sum. apply sum_Permutation.
  now rewrite Hperm.
Qed.

Lemma resample_sum_Permutation (width : Z) (rows rows' : list (datetime * Q)) :
  rows ≡ₚ rows' ->
  Forall2 Pandas.same_row (Pandas.resample_sum width rows)
    (Pandas.resample_sum width rows').
Proof.
  intros Hperm. unfold Pandas.resample_sum.
  destruct rows as [| r rows0] eqn:E.
  { apply Permutation_nil_l in Hperm. subst. constructor. }
  rewrite <- E in *.
  destruct rows' as [| r' rows0'] eqn:E'.
  { apply Permutation_nil_r in Hperm. subst. done. }
  rewrite <- E' in *.
  unfold Pandas.bin_labels.
  rewrite (index_min_Permutation rows rows' Hperm),
    (index_max_Permutation rows rows' Hperm).
  apply Forall2_fmap, Forall_Forall2_diag, Forall_forall.
  intros edge _. split; [reflexivity |]. now apply bin_sum_Permutation.
Qed.

Lemma cumsum_from_same_rows (acc acc' : Q) (col col' : list (datetime * Q)) :
  (acc == acc')%Q -> Forall2 Pandas.same_row col col' ->
  Forall2 Pandas.same_row (Pandas.cumsum_from acc col) (Pandas.cumsum_from acc' col').
Proof.
  intros Hacc Hcol. revert acc acc' Hacc.
  induction Hcol as [| [t v] [t' v'] col col' [Ht Hv] _ IH]; intros acc acc' Hacc;
    simpl in *; [constructor |].
  subst t'. constructor.
  - split; [reflexivity |]. simpl. now rewrite Hacc, Hv.
  - apply IH. now rewrite Hacc, Hv.
Qed.

Lemma bet_data_Permutation (db db' : Store) (user_id : Z) (start_date : datetime) :
  bets db ≡ₚ bets db' ->
  DashboardService.bet_data db user_id start_date
  ≡ₚ DashboardService.bet_data db' user_id start_date.
Proof.
  intros Hperm. unfold DashboardService.bet_data.
  now rewrite !sorted_Permutation, Hperm.
Qed.

(** With exact additions the performance history does not depend on the
    order in which the bets are stored or arrive: two stores whose tables of
    bets are permutations of each other give the same output sequence. *)
Lemma performance_history_permutation (db db' : Store) (now : datetime)
    (user_id : Z) (days : Z) :
  bets db ≡ₚ bets db' ->
  DashboardService.get_performance_history db now user_id days
  = DashboardService.get_performance_history db' now user_id days.
Proof.
  intros Hperm. unfold DashboardService.get_performance_history.
  pose proof (bet_data_Permutation db db' user_id
                (now - Datetime.timedelta days) Hperm) as Hrows.
  remember (DashboardService.bet_data db user_id (now - Datetime.timedelta days))
    as rows eqn:E.
  remember (DashboardService.bet_data db' user_id (now - Datetime.timedelta days))
    as rows' eqn:E'.
  clear E E'.
  destruct rows as [| r rows0], rows' as [| r' rows0']; [reflexivity | | |].
  { now apply Permutation_nil_cons in Hrows. }
  { symmetry in Hrows. now apply Permutation_nil_cons in Hrows. }
  apply list_eq_Forall2, Forall2_fmap.
  eapply Forall2_impl.
  - apply cumsum_from_same_rows; [reflexivity |].
    apply resample_sum_Permutation, Hrows.
  - intros [t v] [t' v'] [Ht Hv]. cbn [fst snd] in *. subst t'.
    f_equal. now apply round_proper.
Qed.

Lemma recent_activity_spec_witness :
  exists item,
    DashboardService.get_recent_activity Samples.format_number Samples.feed_db
      (100 * Samples.day + 12 * Samples.hour) 1 1 = [item]
    /\ item !! "type" = Some (VStr "win")
    /\ item !! "time"
       = Some (VStr (DashboardService._format_relative_time
                       (100 * Samples.day + 12 * Samples.hour)
                       (Bet.created_at Samples.win_at_ten)))
    /\ item !! "date" = None.
Proof.
  destruct (recent_activity_spec Samples.format_number Samples.feed_db
              (100 * Samples.day + 12 * Samples.hour) 1 1)
    as (_ & _ & _ & _ & _ & Hscenario).
  apply (Hscenario Samples.win_at_ten Samples.purchase_at_nine).
  - reflexivity.
  - reflexivity.
  - reflexivity.
  - vm_compute. reflexivity.
Defined.

(** ** Purchases *)

Import MarketplaceService.

Ltac run_purchase :=
  unfold purchase_pick, try_except, try_body, get_user, get_pick,
    first_subscription, needs_payment, append_purchased_pick, increment_sales,
    commit, flush, rollback, discard, to_dict, attempt, read, modify,
    mbind, M_bind, mret, M_ret.

(** What the handler achieves when its own [rollback] does not raise:
    [purchase_pick] returns a result; when a lookup finds no user or no pick
    it returns "User or pick not found" and leaves the session as it was;
    when a statement of the [try] block raises, it returns "Error processing
    purchase" with the session rolled back, and the committed store is
    unchanged unless the statement that raised comes after the commit. *)
Lemma purchase_pick_failure_spec (raises : step -> bool) (σ : Session)
    (user_id pick_id : Z) :
  raises Rollback = false ->
  (exists σ' result,
      purchase_pick raises user_id pick_id σ = (σ', Returned result))
  /\ (raises GetUser = false -> raises GetPick = false ->
      users (working σ) !! user_id = None \/ picks (working σ) !! pick_id = None ->
      purchase_pick raises user_id pick_id σ = (σ, Returned not_found))
  /\ (forall s σ1,
        try_body raises user_id pick_id σ = (σ1, Raised s) ->
        (purchase_pick raises user_id pick_id σ).2 = Returned processing_error
        /\ working (purchase_pick raises user_id pick_id σ).1
           = committed (purchase_pick raises user_id pick_id σ).1
        /\ (s <> ToDict ->
            committed (purchase_pick raises user_id pick_id σ).1 = committed σ)).
Proof.
  intros Hrollback. split; [| split].
  - unfold purchase_pick, try_except.
    destruct (try_body raises user_id pick_id σ) as [σ1 [result | s]]; [eauto |].
    unfold rollback, discard, attempt, mbind, M_bind, mret, M_ret.
    rewrite Hrollback. eauto.
  - intros Hu Hp Hmissing. run_purchase. rewrite Hu, Hp.
    destruct (users (working σ) !! user_id) as [user |],
      (picks (working σ) !! pick_id) as [pick |]; try reflexivity.
    destruct Hmissing; discriminate.
  - intros s σ1. run_purchase. rewrite Hrollback.
    destruct (raises GetUser); [intros [= <- <-]; simpl; done |].
    destruct (raises GetPick); [intros [= <- <-]; simpl; done |].
    destruct (users (working σ) !! user_id) as [user |]; [| discriminate].
    destruct (picks (working σ) !! pick_id) as [pick |]; [| discriminate].
    destruct (raises FirstSubscription); [intros [= <- <-]; simpl; done |].
    destruct (head _) as [sub |].
    + destruct (raises CompareTier); [intros [= <- <-]; simpl; done |].
      destruct (raises AppendPick); [intros [= <- <-]; simpl; done |].
      destruct (raises IncrementSales); [intros [= <- <-]; simpl; done |].
      destruct (raises Commit); [intros [= <- <-]; simpl; done |].
      destruct (raises ToDict); [intros [= <- <-]; simpl; done | discriminate].
    + destruct (raises AppendPick); [intros [= <- <-]; simpl; done |].
      destruct (raises IncrementSales); [intros [= <- <-]; simpl; done |].
      destruct (raises Commit); [intros [= <- <-]; simpl; done |].
      destruct (raises ToDict); [intros [= <- <-]; simpl; done | discriminate].
Qed.

(** C10: the code does not keep the claim.  When [pick.to_dict()] raises, a
    statement after the lookups has failed and "Error processing purchase"
    is returned, yet the purchase has been committed: the [rollback] of the
    handler comes after the [commit] and undoes nothing. *)
Theorem purchase_pick_commit_survives_late_failure :
  (try_body (Samples.only_raises ToDict) 1 7 Samples.shop_session).2 = Raised ToDict
  /\ (purchase_pick (Samples.only_raises ToDict) 1 7 Samples.shop_session).2
     = Returned processing_error
  /\ committed (purchase_pick (Samples.only_raises ToDict) 1 7 Samples.shop_session).1
     <> committed Samples.shop_session
  /\ Pick.sales <$>
       picks (committed (purchase_pick (Samples.only_raises ToDict) 1 7
                           Samples.shop_session).1) !! 7
     = Some 1
  /\ User.purchased_picks <$>
       users (committed (purchase_pick (Samples.only_raises ToDict) 1 7
                           Samples.shop_session).1) !! 1
     = Some [7].
Proof.
  split; [reflexivity |]. split; [reflexivity |]. split.
  - intros Heq. apply (f_equal (fun db => Pick.sales <$> picks db !! 7)) in Heq.
    vm_compute in Heq. discriminate.
  - split; vm_compute; reflexivity.
Qed.

(** An exception raised by the [rollback] of the handler reaches the caller. *)
Lemma purchase_pick_propagates_rollback_failure :
  (purchase_pick (fun s => bool_decide (s = Commit \/ s = Rollback)) 1 7
     Samples.shop_session).2
  = Raised Rollback.
Proof. reflexivity. Qed.

(** * Further properties of the services *)

(** ** Metric primitives *)

(** X1: when the previous value is not 0, the sign of the percentage change
    is the sign of [current - previous], also for a negative previous value. *)
Theorem percentage_change_sign (current previous : Q) :
  ~ (previous == 0)%Q ->
  ((0 < DashboardService._calculate_percentage_change current previous)%Q
     <-> (previous < current)%Q)
  /\ ((DashboardService._calculate_percentage_change current previous == 0)%Q
        <-> (current == previous)%Q)
  /\ ((DashboardService._calculate_percentage_change current previous < 0)%Q
        <-> (current < previous)%Q).
Proof.
  intros Hp.
  assert (Habs : (0 < Qabs previous)%Q).
  { pose proof (Qabs_nonneg previous). pose proof (Qabs_nonzero previous Hp).
    destruct (Qle_lt_or_eq _ _ H) as [Hlt | Heq]; [assumption |].
    exfalso. apply H0. now symmetry. }
  assert (Hinv : (0 < / Qabs previous)%Q) by now apply Qinv_lt_0_compat.
  assert (Hpct : (DashboardService._calculate_percentage_change current previous
                  == 100 * (current - previous) * / Qabs previous)%Q).
  { unfold DashboardService._calculate_percentage_change.
    destruct (Qeq_bool previous 0) eqn:E.
    - apply Qeq_bool_iff in E. contradiction.
    - field. now apply Qabs_nonzero. }
  rewrite Hpct. set (k := (/ Qabs previous)%Q) in *. clearbody k.
  split; [| split]; split; intros H; nra.
Qed.

Lemma percentage_change_sign_witness :
  (0 < DashboardService._calculate_percentage_change (-40) (-50))%Q
  <-> (-50 < -40)%Q.
Proof.
  apply (proj1 (percentage_change_sign (-40) (-50) ltac:(discriminate))).
Defined.

(** X2: when the user has no settled bet in the previous window, both trends
    are 0, whatever happened in the current window. *)
Theorem trend_zero_without_previous_activity (db : Store) (now : datetime)
    (user_id : Z) (current_period_days previous_period_days : Z) :
  (forall bet, bet ∈ bets db -> Bet.user_id bet = user_id ->
     Bet.status bet <> "pending" ->
     ~ (now - Datetime.timedelta previous_period_days <= Bet.created_at bet
        < now - Datetime.timedelta current_period_days)) ->
  DashboardService._calculate_trend_metric db now user_id
    DashboardService._calculate_period_profit
    current_period_days previous_period_days = 0%Q
  /\ DashboardService._calculate_trend_metric db now user_id
       DashboardService._calculate_period_win_rate
       current_period_days previous_period_days = 0%Q.
Proof.
  intros Hnone.
  assert (Hempty :
    DashboardService.period_bets db user_id
      (now - Datetime.timedelta previous_period_days)
      (Some (now - Datetime.timedelta current_period_days)) = []).
  { apply elem_of_nil_inv. intros bet.
    unfold DashboardService.period_bets. rewrite !list_elem_of_filter.
    intros (Hend & (Hu & Hstart & Hst) & Hin).
    apply (Hnone bet Hin Hu Hst). lia. }
  unfold DashboardService._calculate_trend_metric,
    DashboardService._calculate_period_profit,
    DashboardService._calculate_period_win_rate.
  rewrite Hempty. split; reflexivity.
Qed.

Lemma trend_zero_without_previous_activity_witness :
  DashboardService._calculate_trend_metric Samples.trend_db (100 * Samples.day) 1
    DashboardService._calculate_period_profit 5 8 = 0%Q
  /\ DashboardService._calculate_trend_metric Samples.trend_db (100 * Samples.day) 1
       DashboardService._calculate_period_win_rate 5 8 = 0%Q.
Proof.
  apply (trend_zero_without_previous_activity Samples.trend_db
           (100 * Samples.day) 1 5 8).
  intros bet Hin _ _.
  apply list_elem_of_In in Hin. simpl in Hin.
  destruct Hin as [<- | [<- | []]]; vm_compute; intros [H1 _]; now apply H1.
Defined.

(** X3: a timestamp up to 23 hours in the future is never labelled
    "just now": the negative difference wraps to the seconds of the day, so
    the label counts the whole hours from the lead to a full day. *)
Theorem format_relative_time_future (now timestamp : datetime) :
  let lead := timestamp - now in
  0 < lead <= 23 * (3600 * Datetime.MICROS_PER_SECOND) ->
  DashboardService._format_relative_time now timestamp
  = Py.str ((Datetime.timedelta 1 - lead) / (3600 * Datetime.MICROS_PER_SECOND))
      +:+ "h ago".
Proof.
  intros lead Hlead.
  unfold DashboardService._format_relative_time.
  replace (now - timestamp) with (- lead) by (unfold lead; lia).
  unfold Datetime.td_days, Datetime.td_seconds, Datetime.timedelta,
    Datetime.MICROS_PER_DAY, Datetime.MICROS_PER_SECOND in *.
  clearbody lead.
  assert (Hdiv : - lead / 86400000000 = -1)
    by (symmetry; apply (Z.div_unique _ _ _ (86400000000 - lead)); lia).
  assert (Hmod : - lead mod 86400000000 = 86400000000 - lead)
    by (symmetry; apply (Z.mod_unique _ _ (-1)); lia).
  rewrite Hdiv, Hmod. simpl (0 <? -1).
  assert (3600 <= (86400000000 - lead) / 1000000)
    by (apply Z.div_le_lower_bound; lia).
  destruct (Z.leb_spec 3600 ((86400000000 - lead) / 1000000)); [| lia].
  rewrite Z.div_div by lia. rewrite Z.mul_1_l. reflexivity.
Qed.

Lemma format_relative_time_future_witness :
  DashboardService._format_relative_time 0 1
  = Py.str ((Datetime.timedelta 1 - 1) / (3600 * Datetime.MICROS_PER_SECOND))
      +:+ "h ago".
Proof.
  apply (format_relative_time_future 0 1). vm_compute. split; [reflexivity | discriminate].
Defined.

(** ** Metrics snapshot *)

Lemma round_half_even_bounds (x : Q) (a b : Z) :
  (inject_Z a <= x <= inject_Z b)%Q -> a <= Py.round_half_even x <= b.
Proof.
  intros [Ha Hb]. unfold Py.round_half_even.
  pose proof (Qfloor_le x) as Hfl. pose proof (Qlt_floor x) as Hlt.
  assert (Haf : a <= Qfloor x).
  { rewrite <- (Qfloor_Z a). now apply Qfloor_resp_le. }
  assert (Hfb : Qfloor x <= b).
  { rewrite <- (Qfloor_Z b). now apply Qfloor_resp_le. }
  assert (Hstep : (inject_Z (Qfloor x) < x)%Q -> Qfloor x + 1 <= b).
  { intros Hfx. assert (Hz : (inject_Z (Qfloor x) < inject_Z b)%Q) by lra.
    rewrite <- Zlt_Qlt in Hz. lia. }
  destruct (Qcompare_spec (x - inject_Z (Qfloor x)) (1 # 2)) as [Heq | Hlow | Hhigh].
  - destruct (Z.even (Qfloor x)); [lia |].
    split; [lia | apply Hstep; lra].
  - lia.
  - split; [lia | apply Hstep; lra].
Qed.

Lemma round_bounds (x : Q) (ndigits : nat) (a b : Z) :
  (inject_Z a <= x <= inject_Z b)%Q ->
  (inject_Z a <= Py.round x ndigits <= inject_Z b)%Q.
Proof.
  intros Hx. unfold Py.round. destruct ndigits as [| n].
  - pose proof (round_half_even_bounds x a b Hx) as [H1 H2].
    rewrite <- !Zle_Qle. lia.
  - set (scale := (10 ^ Pos.of_nat (S n))%positive).
    assert (Hs : (0 < inject_Z (Z.pos scale))%Q) by reflexivity.
    pose proof (round_half_even_bounds (x * inject_Z (Z.pos scale))
                  (a * Z.pos scale) (b * Z.pos scale)) as Hr.
    rewrite !inject_Z_mult in Hr.
    destruct Hr as [H1 H2]; [split; nra |].
    unfold Qle. simpl. lia.
Qed.

Lemma win_rate_bounds (bets : list Bet.t) :
  (0 <= DashboardService._calculate_win_rate bets <= 100)%Q.
Proof.
  destruct bets as [| bet bets]; [simpl; lra |].
  unfold DashboardService._calculate_win_rate.
  apply win_ratio_bounds; [apply length_filter | simpl; lia].
Qed.

(** X4: the win rate of a metrics snapshot lies between 0 and 100. *)
Theorem get_user_metrics_win_rate_bounds
    (get_clutch_picks_count : Store -> Z -> option datetime -> option datetime -> Z)
    (db : Store) (now : datetime) (user_id : Z) (metrics : DashboardService.Metrics) :
  DashboardService.get_user_metrics get_clutch_picks_count db now user_id
  = Some metrics ->
  (0 <= DashboardService.winRate metrics <= 100)%Q.
Proof.
  unfold DashboardService.get_user_metrics.
  destruct (users db !! user_id) as [user |]; [| discriminate].
  intros [= <-]. cbn [DashboardService.winRate].
  apply (round_bounds _ 1 0 100).
  apply win_rate_bounds.
Qed.

Lemma get_user_metrics_win_rate_bounds_witness :
  exists metrics,
    DashboardService.get_user_metrics Samples.no_clutch_picks Samples.trend_db
      (100 * Samples.day) 1 = Some metrics
    /\ (0 <= DashboardService.winRate metrics <= 100)%Q.
Proof.
  eexists. split; [reflexivity |].
  apply (get_user_metrics_win_rate_bounds Samples.no_clutch_picks
           Samples.trend_db (100 * Samples.day) 1 _ eq_refl).
Defined.

Lemma filter_insert_skipped {A} (P : A -> Prop) `{!forall x, Decision (P x)}
    (pre post : list A) (x : A) :
  ~ P x -> filter P (pre ++ x :: post) = filter P (pre ++ post).
Proof.
  intros Hx. rewrite !filter_app, filter_cons.
  now destruct (decide (P x)).
Qed.

Lemma period_bets_insert_skipped (db : Store) (user_id : Z) (start_date : datetime)
    (end_date : option datetime) (pre post : list Bet.t) (bet : Bet.t) :
  Bet.user_id bet <> user_id \/ Bet.status bet = "pending"
  \/ Bet.created_at bet < start_date ->
  DashboardService.period_bets (with_bets db (pre ++ bet :: post))
    user_id start_date end_date
  = DashboardService.period_bets (with_bets db (pre ++ post))
      user_id start_date end_date.
Proof.
  intros Hbet. unfold DashboardService.period_bets. cbn [bets with_bets].
  rewrite filter_insert_skipped; [reflexivity |].
  intros (Hu & Hstart & Hst). destruct Hbet as [H | [H | H]]; [done | done | lia].
Qed.

(** X5: the win rate, the total profit and their trends depend only on the
    settled bets of the user: a bet of another user, or a pending bet,
    inserted anywhere in the table changes none of them. *)
Theorem get_user_metrics_ignores_foreign_and_pending_bets
    (get_clutch_picks_count : Store -> Z -> option datetime -> option datetime -> Z)
    (db : Store) (now : datetime) (user_id : Z)
    (pre post : list Bet.t) (bet : Bet.t) :
  Bet.user_id bet <> user_id \/ Bet.status bet = "pending" ->
  let before :=
    DashboardService.get_user_metrics get_clutch_picks_count
      (with_bets db (pre ++ post)) now user_id in
  let after :=
    DashboardService.get_user_metrics get_clutch_picks_count
      (with_bets db (pre ++ bet :: post)) now user_id in
  DashboardService.winRate <$> after = DashboardService.winRate <$> before
  /\ DashboardService.winRateTrend <$> after = DashboardService.winRateTrend <$> before
  /\ DashboardService.totalProfit <$> after = DashboardService.totalProfit <$> before
  /\ DashboardService.profitTrend <$> after = DashboardService.profitTrend <$> before
  /\ DashboardService.followers <$> after = DashboardService.followers <$> before.
Proof.
  intros Hbet before after. unfold before, after, DashboardService.get_user_metrics.
  cbn [users bets with_bets].
  destruct (users db !! user_id) as [user |]; [| done].
  cbn [fmap option_fmap option_map DashboardService.winRate
         DashboardService.winRateTrend DashboardService.totalProfit
         DashboardService.profitTrend DashboardService.followers].
  unfold DashboardService._calculate_trend_metric,
    DashboardService._calculate_period_win_rate,
    DashboardService._calculate_period_profit.
  rewrite !(period_bets_insert_skipped db user_id _ _ pre post bet) by tauto.
  rewrite !list_filter_filter.
  rewrite (filter_insert_skipped _ pre post bet) by tauto.
  done.
Qed.

Lemma get_user_metrics_ignores_foreign_and_pending_bets_witness :
  DashboardService.winRate <$>
    DashboardService.get_user_metrics Samples.no_clutch_picks
      (with_bets Samples.trend_db
         ([] ++ Samples.bet 9 2 (95 * Samples.day) "loss" (Some (-5)%Q)
          :: bets Samples.trend_db))
      (100 * Samples.day) 1
  = DashboardService.winRate <$>
      DashboardService.get_user_metrics Samples.no_clutch_picks
        (with_bets Samples.trend_db ([] ++ bets Samples.trend_db))
        (100 * Samples.day) 1.
Proof.
  apply (proj1 (get_user_metrics_ignores_foreign_and_pending_bets
                  Samples.no_clutch_picks Samples.trend_db (100 * Samples.day) 1
                  [] (bets Samples.trend_db)
                  (Samples.bet 9 2 (95 * Samples.day) "loss" (Some (-5)%Q))
                  ltac:(left; discriminate))).
Defined.

(** ** Performance history *)

Section sorted_filter.
Context {A : Type} (key : A -> Z) (reverse : bool).
Context (P : A -> Prop) `{!forall x, Decision (P x)}.

Lemma insort_first (before : A -> A -> bool) (x : A) (l : list A) :
  Forall (fun y => before x y = true) l -> Py.insort before x l = x :: l.
Proof. intros Hl. destruct Hl as [| y l Hy _]; simpl; [done | now rewrite Hy]. Qed.

Lemma filter_insort (x : A) (l : list A) :
  StronglySorted (Py.in_order key reverse) l ->
  filter P (Py.insort (fun x y => if reverse then key y <=? key x
                                  else key x <=? key y) x l)
  = if decide (P x)
    then Py.insort (fun x y => if reverse then key y <=? key x
                               else key x <=? key y) x (filter P l)
    else filter P l.
Proof.
  induction 1 as [| y l Hl IH Hy].
  - simpl. rewrite filter_cons. now destruct (decide (P x)).
  - cbn [Py.insort].
    destruct (if reverse then key y <=? key x else key x <=? key y) eqn:E.
    + rewrite (filter_cons P x). destruct (decide (P x)) as [HPx | HPx]; [| done].
      rewrite insort_first; [done |].
      apply Forall_forall. intros z Hz.
      apply list_elem_of_filter in Hz as [_ Hz].
      apply elem_of_cons in Hz as [-> | Hz]; [assumption |].
      rewrite Forall_forall in Hy. specialize (Hy z Hz).
      unfold Py.in_order in Hy. destruct reverse; lia.
    + rewrite !(filter_cons P y), IH.
      destruct (decide (P y)), (decide (P x)); try done.
      cbn [Py.insort]. now rewrite E.
Qed.

(** Sorting and filtering commute, the sort being stable. *)
Lemma filter_sorted (l : list A) :
  filter P (Py.sorted key reverse l) = Py.sorted key reverse (filter P l).
Proof.
  induction l as [| x l IH]; [done |].
  change (Py.sorted key reverse (x :: l))
    with (Py.insort (fun x y => if reverse then key y <=? key x
                                else key x <=? key y) x (Py.sorted key reverse l)).
  rewrite filter_insort by apply sorted_StronglySorted.
  rewrite filter_cons, IH. now destruct (decide (P x)).
Qed.

End sorted_filter.

Lemma omap_filter_is_Some {A B} (f : A -> option B) (l : list A) :
  omap f l = omap f (filter (fun x => is_Some (f x)) l).
Proof.
  induction l as [| x l IH]; [done |].
  rewrite filter_cons. destruct (decide (is_Some (f x))) as [[y Hy] | Hnone].
  - simpl. rewrite Hy. f_equal. exact IH.
  - simpl. destruct (f x) as [y |]; [exfalso; eauto | exact IH].
Qed.

(** The rows handed to pandas, with the filters applied before the sort. *)
Lemma bet_data_filter_first (db : Store) (user_id : Z) (start_date : datetime) :
  DashboardService.bet_data db user_id start_date
  = omap (fun bet => match Bet.profit bet with
                     | Some p => Some (Bet.created_at bet, p)
                     | None => None
                     end)
      (Py.sorted Bet.created_at false
         (filter (fun bet => is_Some (Bet.profit bet)
                             /\ Bet.user_id bet = user_id
                             /\ start_date <= Bet.created_at bet
                             /\ Bet.status bet <> "pending") (bets db))).
Proof.
  unfold DashboardService.bet_data.
  rewrite omap_filter_is_Some, filter_sorted, list_filter_filter.
  f_equal. f_equal. apply list_filter_iff. intros bet.
  destruct (Bet.profit bet); [| split; intros [[? [=]] _]].
  split; intros [_ H]; eauto.
Qed.

(** X6: the performance history depends only on the user's settled bets of
    the horizon that carry a profit: a bet of another user, a pending bet, a
    bet older than the horizon or a bet without profit, inserted anywhere in
    the table, leaves it unchanged. *)
Theorem performance_history_ignores_other_bets (db : Store) (now : datetime)
    (user_id : Z) (days : Z) (pre post : list Bet.t) (bet : Bet.t) :
  Bet.user_id bet <> user_id \/ Bet.status bet = "pending"
  \/ Bet.created_at bet < now - Datetime.timedelta days
  \/ Bet.profit bet = None ->
  DashboardService.get_performance_history
    (with_bets db (pre ++ bet :: post)) now user_id days
  = DashboardService.get_performance_history
      (with_bets db (pre ++ post)) now user_id days.
Proof.
  intros Hbet. unfold DashboardService.get_performance_history.
  rewrite !bet_data_filter_first. cbn [bets with_bets].
  rewrite filter_insert_skipped; [reflexivity |].
  intros ([p Hp] & Hu & Hstart & Hst).
  destruct Hbet as [H | [H | [H | H]]]; [done | done | lia | congruence].
Qed.

Lemma performance_history_ignores_other_bets_witness :
  DashboardService.get_performance_history
    (with_bets Samples.trend_db
       ([] ++ Samples.bet 9 1 (95 * Samples.day) "loss" None
        :: bets Samples.trend_db))
    (100 * Samples.day) 1 60
  = DashboardService.get_performance_history
      (with_bets Samples.trend_db ([] ++ bets Samples.trend_db))
      (100 * Samples.day) 1 60.
Proof.
  apply (performance_history_ignores_other_bets Samples.trend_db
           (100 * Samples.day) 1 60 [] (bets Samples.trend_db)
           (Samples.bet 9 1 (95 * Samples.day) "loss" None)).
  right. right. right. reflexivity.
Defined.

Lemma performance_history_of_rows (db : Store) (now : datetime) (user_id : Z)
    (days : Z) :
  let rows := DashboardService.bet_data db user_id (now - Datetime.timedelta days) in
  let width := DashboardService.freq days in
  let origin := Pandas.normalize (Pandas.index_min rows) in
  rows <> [] ->
  DashboardService.get_performance_history db now user_id days
  = (fun row : datetime * Q =>
       {| DashboardService.date := Datetime.strftime_b_d row.1;
          DashboardService.profit := Py.round row.2 2 |})
      <$> Pandas.cumsum_from 0
            ((fun k : nat => (origin + Z.of_nat k * width,
                              Pandas.bin_sum width rows (origin + Z.of_nat k * width)))
               <$> seq 0 (Z.to_nat ((Pandas.index_max rows - origin) / width) + 1)).
Proof.
  intros rows width origin Hrows.
  unfold DashboardService.get_performance_history. fold rows width.
  subst origin.
  rewrite <- (resample_sum_start_day width rows)
    by (try apply freq_at_least_a_day; assumption).
  clear -Hrows. destruct rows; [done | reflexivity].
Qed.

(** X7: the performance history is empty exactly when the user has no
    settled bet with a profit value since the start of the horizon. *)
Theorem performance_history_empty_iff (db : Store) (now : datetime)
    (user_id : Z) (days : Z) :
  DashboardService.get_performance_history db now user_id days = []
  <-> forall bet, bet ∈ bets db ->
        ~ (Bet.user_id bet = user_id
           /\ now - Datetime.timedelta days <= Bet.created_at bet
           /\ Bet.status bet <> "pending"
           /\ is_Some (Bet.profit bet)).
Proof.
  assert (Hrows :
    DashboardService.bet_data db user_id (now - Datetime.timedelta days) = []
    <-> forall bet, bet ∈ bets db ->
          ~ (Bet.user_id bet = user_id
             /\ now - Datetime.timedelta days <= Bet.created_at bet
             /\ Bet.status bet <> "pending"
             /\ is_Some (Bet.profit bet))).
  { rewrite bet_data_filter_first. split.
    - intros Hnil bet Hin (Hu & Hstart & Hst & [p Hp]).
      assert (Hbet : bet ∈ Py.sorted Bet.created_at false
                (filter (fun bet => is_Some (Bet.profit bet)
                                    /\ Bet.user_id bet = user_id
                                    /\ now - Datetime.timedelta days <= Bet.created_at bet
                                    /\ Bet.status bet <> "pending") (bets db))).
      { rewrite sorted_Permutation. apply list_elem_of_filter. eauto 10. }
      assert (Hrow : (Bet.created_at bet, p) ∈ @nil (datetime * Q)).
      { rewrite <- Hnil. apply list_elem_of_omap. exists bet.
        split; [assumption | now rewrite Hp]. }
      inversion Hrow.
    - intros Hnone.
      replace (filter _ (bets db)) with (@nil Bet.t); [reflexivity |].
      symmetry. apply elem_of_nil_inv. intros bet.
      rewrite list_elem_of_filter. intros [(Hp & Hu & Hstart & Hst) Hin].
      apply (Hnone bet Hin). tauto. }
  rewrite <- Hrows. split.
  - intros Hhistory.
    destruct (decide (DashboardService.bet_data db user_id
                        (now - Datetime.timedelta days) = [])) as [| Hne];
      [assumption |].
    rewrite performance_history_of_rows in Hhistory by assumption.
    apply (f_equal length) in Hhistory.
    rewrite length_fmap, length_cumsum_from, length_fmap, length_seq in Hhistory.
    simpl in Hhistory. lia.
  - intros Hnil. unfold DashboardService.get_performance_history. now rewrite Hnil.
Qed.

Lemma performance_history_empty_iff_witness :
  DashboardService.get_performance_history Samples.trend_db (100 * Samples.day) 2 60
  = [].
Proof.
  apply (proj2 (performance_history_empty_iff Samples.trend_db
                  (100 * Samples.day) 2 60)).
  intros bet Hin. apply list_elem_of_In in Hin. simpl in Hin.
  destruct Hin as [<- | [<- | []]]; intros [Hu _]; discriminate Hu.
Defined.

Lemma sum_cons (x : Q) (l : list Q) : (Py.sum (x :: l) == x + Py.sum l)%Q.
Proof.
  unfold Py.sum. cbn [fold_left]. generalize 0%Q as a. revert x.
  induction l as [| y l IH]; intros x a; cbn [fold_left]; [ring |].
  rewrite (IH y (a + x)%Q), (IH y a), (IH x a). ring.
Qed.

Lemma sum_app (l l' : list Q) : (Py.sum (l ++ l') == Py.sum l + Py.sum l')%Q.
Proof.
  induction l as [| x l IH]; cbn [app].
  - unfold Py.sum at 2. cbn [fold_left]. ring.
  - rewrite !sum_cons, IH. ring.
Qed.

Lemma window_sum_split (rows : list (datetime * Q)) (a b c : datetime) :
  a <= b <= c ->
  (Py.sum (snd <$> filter (fun r : datetime * Q => (a <= r.1 /\ r.1 < b)%Z) rows)
   + Py.sum (snd <$> filter (fun r : datetime * Q => (b <= r.1 /\ r.1 < c)%Z) rows)
   == Py.sum (snd <$> filter (fun r : datetime * Q => (a <= r.1 /\ r.1 < c)%Z) rows))%Q.
Proof.
  intros Habc. induction rows as [| r rows IH]; [reflexivity |].
  rewrite !filter_cons.
  destruct (decide (a <= r.1 /\ r.1 < b)), (decide (b <= r.1 /\ r.1 < c)),
    (decide (a <= r.1 /\ r.1 < c));
    try (exfalso; lia); rewrite ?fmap_cons, ?sum_cons, <- ?IH; ring.
Qed.

(** The bins up to the [k]-th hold the rows from the origin to its edge. *)
Lemma bins_cover (width origin : datetime) (rows : list (datetime * Q)) (k : nat) :
  0 < width ->
  (Py.sum ((fun j : nat => Pandas.bin_sum width rows (origin + Z.of_nat j * width)%Z)
           <$> seq 0 k)
   == Py.sum (snd <$> filter (fun r : datetime * Q =>
                                (origin <= r.1 /\ r.1 < origin + Z.of_nat k * width)%Z)
                             rows))%Q.
Proof.
  intros Hw. induction k as [| k IH].
  - replace (filter _ rows) with (@nil (datetime * Q)); [reflexivity |].
    symmetry. apply elem_of_nil_inv. intros r.
    rewrite list_elem_of_filter. lia.
  - rewrite seq_S, fmap_app, sum_app, IH. cbn [fmap list_fmap Nat.add].
    rewrite sum_cons. unfold Py.sum at 3. cbn [fold_left]. unfold Pandas.bin_sum.
    rewrite Qplus_0_r.
    rewrite <- (window_sum_split rows origin (origin + Z.of_nat k * width)
                  (origin + Z.of_nat (S k) * width)) by lia.
    apply Qplus_comp; [reflexivity |].
    replace (origin + Z.of_nat k * width + width)
      with (origin + Z.of_nat (S k) * width) by lia.
    reflexivity.
Qed.

Lemma filter_all {A} (P : A -> Prop) `{!forall x, Decision (P x)} (l : list A) :
  Forall P l -> filter P l = l.
Proof.
  induction 1 as [| x l Hx _ IH]; [done |].
  rewrite filter_cons, IH. now destruct (decide (P x)).
Qed.

Lemma snd_omap_bet_rows (l : list Bet.t) :
  snd <$> omap (fun bet => match Bet.profit bet with
                           | Some p => Some (Bet.created_at bet, p)
                           | None => None
                           end) l
  = omap Bet.profit l.
Proof.
  induction l as [| bet l IH]; [done |].
  simpl. destruct (Bet.profit bet); simpl; [f_equal |]; exact IH.
Qed.

(** With exact additions the last point of the performance history carries
    the period profit of the whole horizon, rounded to two places; with
    floating-point additions the two sums group their terms differently and
    may round apart. *)
Lemma performance_history_ends_at_period_profit (db : Store) (now : datetime)
    (user_id : Z) (days : Z) (point : DashboardService.PerformancePoint) :
  last (DashboardService.get_performance_history db now user_id days) = Some point ->
  DashboardService.profit point
  = Py.round (DashboardService._calculate_period_profit db user_id
                (now - Datetime.timedelta days) None) 2.
Proof.
  intros Hlast.
  set (rows := DashboardService.bet_data db user_id (now - Datetime.timedelta days)).
  assert (Hrows : rows <> []).
  { intros Hnil. unfold DashboardService.get_performance_history in Hlast.
    fold rows in Hlast. now rewrite Hnil in Hlast. }
  pose proof (performance_history_of_rows db now user_id days Hrows) as Hhistory.
  cbv zeta in Hhistory. fold rows in Hhistory.
  set (width := DashboardService.freq days) in *.
  set (origin := Pandas.normalize (Pandas.index_min rows)) in *.
  set (m := Z.to_nat ((Pandas.index_max rows - origin) / width)) in *.
  assert (Hw : 0 < width).
  { pose proof (freq_at_least_a_day days). unfold Datetime.MICROS_PER_DAY in *.
    unfold width. lia. }
  rewrite Hhistory, fmap_last in Hlast.
  rewrite last_lookup, length_cumsum_from, length_fmap, length_seq in Hlast.
  replace (Nat.pred (m + 1)) with m in Hlast by lia.
  rewrite (lookup_cumsum_from _ _ m (origin + Z.of_nat m * width)
             (Pandas.bin_sum width rows (origin + Z.of_nat m * width))) in Hlast.
  2: { rewrite list_lookup_fmap, lookup_seq_lt by lia. reflexivity. }
  apply (inj Some) in Hlast. subst point. cbn [DashboardService.profit snd].
  apply round_proper.
  rewrite take_ge by (rewrite length_fmap, length_seq; lia).
  rewrite <- list_fmap_compose.
  change (fold_left Qplus ?l 0%Q) with (Py.sum l).
  etransitivity; [apply (bins_cover width origin rows (m + 1) Hw) |].
  rewrite filter_all.
  - unfold rows, DashboardService.bet_data. rewrite snd_omap_bet_rows.
    unfold DashboardService._calculate_period_profit, DashboardService.profit_sum,
      DashboardService.period_bets.
    apply sum_Permutation. now rewrite sorted_Permutation.
  - apply Forall_forall. intros r Hr.
    pose proof (proj1 (index_min_spec rows Hrows) r Hr).
    pose proof (proj1 (index_max_spec rows Hrows) r Hr).
    pose proof (normalize_bounds (Pandas.index_min rows)) as Hn. fold origin in Hn.
    pose proof (Z.div_mod (Pandas.index_max rows - origin) width ltac:(lia)) as Hdm.
    pose proof (Z.mod_pos_bound (Pandas.index_max rows - origin) width Hw) as Hmod.
    assert (0 <= (Pandas.index_max rows - origin) / width)
      by (apply Z.div_pos; lia).
    replace (Z.of_nat (m + 1))
      with ((Pandas.index_max rows - origin) / width + 1) by (unfold m; lia).
    lia.
Qed.

Lemma performance_history_ends_at_period_profit_witness :
  exists point,
    last (DashboardService.get_performance_history Samples.trend_db
            (100 * Samples.day) 1 60) = Some point
    /\ DashboardService.profit point
       = Py.round (DashboardService._calculate_period_profit Samples.trend_db 1
                     (100 * Samples.day - Datetime.timedelta 60) None) 2.
Proof.
  eexists. split; [vm_compute; reflexivity |].
  apply (performance_history_ends_at_period_profit Samples.trend_db
           (100 * Samples.day) 1 60).
  vm_compute. reflexivity.
Defined.

(** ** Activity feed *)

Lemma activities_elem_of (format_number : Q -> string) (db : Store)
    (now : datetime) (user_id : Z) (limit : nat) (a : dict) :
  a ∈ DashboardService.activities format_number db now user_id limit ->
  (exists bet, a = DashboardService.bet_activity format_number now bet)
  \/ (exists sub, a = DashboardService.subscription_activity now sub).
Proof.
  unfold DashboardService.activities.
  rewrite elem_of_app, !list_elem_of_fmap.
  intros [[bet [-> _]] | [sub [-> _]]];
    [left; exists bet; reflexivity | right; exists sub; reflexivity].
Qed.

(** X9: every item of the feed has exactly the keys "type", "description"
    and "time", and its type is one of "win", "loss", "bet" and "purchase". *)
Theorem recent_activity_item_shape (format_number : Q -> string) (db : Store)
    (now : datetime) (user_id : Z) (limit : nat) :
  Forall (fun item : dict =>
            dom item = ({["type"; "description"; "time"]} : gset string)
            /\ exists kind, item !! "type" = Some (VStr kind)
                            /\ kind ∈ ["win"; "loss"; "bet"; "purchase"])
    (DashboardService.get_recent_activity format_number db now user_id limit).
Proof.
  unfold DashboardService.get_recent_activity.
  apply Forall_take, Forall_fmap, Forall_forall. intros a Ha.
  rewrite sorted_Permutation in Ha.
  apply activities_elem_of in Ha as [[bet ->] | [sub ->]]; cbn [compose].
  - split.
    + unfold DashboardService.bet_activity.
      rewrite dom_delete_L, !dom_insert_L, dom_empty_L. set_solver.
    + rewrite lookup_delete_ne by done.
      unfold DashboardService.bet_activity. rewrite lookup_insert_eq.
      eexists. split; [reflexivity |].
      destruct (decide (Bet.status bet ∈ ["win"; "loss"])) as [Hin | _].
      * revert Hin. rewrite !elem_of_cons. tauto.
      * rewrite !elem_of_cons. tauto.
  - split.
    + unfold DashboardService.subscription_activity.
      rewrite dom_delete_L, !dom_insert_L, dom_empty_L. set_solver.
    + rewrite lookup_delete_ne by done.
      unfold DashboardService.subscription_activity. rewrite lookup_insert_eq.
      eexists. split; [reflexivity |]. rewrite !elem_of_cons. tauto.
Qed.

(** X10: the feed has [min limit (b + s)] items, where [b] is the number of
    the user's bets capped at [limit] and [s] the number of the user's
    subscriptions capped at 3: at most three purchases are ever shown. *)
Theorem recent_activity_length (format_number : Q -> string) (db : Store)
    (now : datetime) (user_id : Z) (limit : nat) :
  let b := length (filter (fun bet => Bet.user_id bet = user_id) (bets db)) in
  let s := length (filter (fun sub => Subscription.user_id sub = user_id)
                          (subscriptions db)) in
  length (DashboardService.get_recent_activity format_number db now user_id limit)
  = (limit `min` (limit `min` b + 3 `min` s))%nat.
Proof.
  intros b s. unfold DashboardService.get_recent_activity, DashboardService.activities.
  rewrite length_take, length_fmap, length_sorted, length_app, !length_fmap,
    !length_take, !length_sorted.
  fold b s. lia.
Qed.

(** X11: the feed of a user does not change when a bet or a subscription of
    another user is inserted anywhere in the tables. *)
Theorem recent_activity_ignores_other_users (format_number : Q -> string)
    (db : Store) (now : datetime) (user_id : Z) (limit : nat)
    (pre post : list Bet.t) (bet : Bet.t)
    (pre' post' : list Subscription.t) (sub : Subscription.t) :
  Bet.user_id bet <> user_id -> Subscription.user_id sub <> user_id ->
  DashboardService.get_recent_activity format_number
    (with_subscriptions (with_bets db (pre ++ bet :: post)) (pre' ++ sub :: post'))
    now user_id limit
  = DashboardService.get_recent_activity format_number
      (with_subscriptions (with_bets db (pre ++ post)) (pre' ++ post'))
      now user_id limit.
Proof.
  intros Hbet Hsub.
  unfold DashboardService.get_recent_activity, DashboardService.activities.
  cbn [bets subscriptions with_bets with_subscriptions].
  rewrite (filter_insert_skipped _ pre post bet) by assumption.
  rewrite (filter_insert_skipped _ pre' post' sub) by assumption.
  reflexivity.
Qed.

Lemma recent_activity_ignores_other_users_witness :
  DashboardService.get_recent_activity Samples.format_number
    (with_subscriptions
       (with_bets Samples.feed_db
          ([] ++ Samples.bet 9 2 (100 * Samples.day) "win" None
           :: [Samples.win_at_ten]))
       ([Samples.purchase_at_nine]
        ++ {| Subscription.id := 2; Subscription.user_id := 2;
              Subscription.plan_name := "Silver";
              Subscription.created_at := 100 * Samples.day;
              Subscription.active := true; Subscription.tier := 0 |} :: []))
    (101 * Samples.day) 1 15
  = DashboardService.get_recent_activity Samples.format_number
      (with_subscriptions (with_bets Samples.feed_db ([] ++ [Samples.win_at_ten]))
         ([Samples.purchase_at_nine] ++ []))
      (101 * Samples.day) 1 15.
Proof.
  apply (recent_activity_ignores_other_users Samples.format_number
           Samples.feed_db (101 * Samples.day) 1 15
           [] [Samples.win_at_ten] (Samples.bet 9 2 (100 * Samples.day) "win" None)
           [Samples.purchase_at_nine] []);
    discriminate.
Defined.

(** ** Purchases that go through *)

Lemma purchase_pick_success_run (raises : step -> bool) (σ : Session)
    (user_id pick_id : Z) (user : User.t) (pick : Pick.t) :
  (forall s, raises s = false) ->
  users (working σ) !! user_id = Some user ->
  picks (working σ) !! pick_id = Some pick ->
  purchase_pick raises user_id pick_id σ
  = ({| committed := purchased (working σ) user_id pick_id;
        working := purchased (working σ) user_id pick_id |},
     Returned {| success := true;
                 message := "Pick purchased successfully";
                 MarketplaceService.pick :=
                   Some {| Pick.id := Pick.id pick;
                           Pick.required_tier := Pick.required_tier pick;
                           Pick.sales := Pick.sales pick + 1 |} |}).
Proof.
  intros Hraises Huser Hpick. run_purchase.
  rewrite !Hraises, Huser, Hpick.
  destruct (head _) as [sub |]; cbn [working committed picks];
    unfold purchased; rewrite ?Hraises; cbn [working committed picks];
    rewrite lookup_alter_eq, Hpick; reflexivity.
Qed.

(** X12: when no statement raises and the user and the pick exist, the
    purchase succeeds whatever subscription the user has or lacks: in the
    committed store the user holds the pick, appended to the purchased picks
    unless already among them, the pick's sales grow by one, the other users
    and picks and the other tables stay as the session had them, and the
    returned pick shows the new sales count. *)
Theorem purchase_pick_success (raises : step -> bool) (σ : Session)
    (user_id pick_id : Z) (user : User.t) (pick : Pick.t) :
  (forall s, raises s = false) ->
  users (working σ) !! user_id = Some user ->
  picks (working σ) !! pick_id = Some pick ->
  let run := purchase_pick raises user_id pick_id σ in
  let db := committed run.1 in
  working run.1 = db
  /\ (exists result,
        run.2 = Returned result /\ success result = true
        /\ Pick.sales <$> MarketplaceService.pick result = Some (Pick.sales pick + 1))
  /\ User.purchased_picks <$> users db !! user_id
     = Some (if decide (pick_id ∈ User.purchased_picks user)
             then User.purchased_picks user
             else User.purchased_picks user ++ [pick_id])
  /\ Pick.sales <$> picks db !! pick_id = Some (Pick.sales pick + 1)
  /\ (forall other, other <> user_id -> users db !! other = users (working σ) !! other)
  /\ (forall other, other <> pick_id -> picks db !! other = picks (working σ) !! other)
  /\ bets db = bets (working σ)
  /\ subscriptions db = subscriptions (working σ).
Proof.
  intros Hraises Huser Hpick run db. unfold db, run.
  rewrite (purchase_pick_success_run raises σ user_id pick_id user pick) by assumption.
  cbn [fst snd committed working]. unfold purchased. cbn [users picks bets subscriptions].
  split; [reflexivity |]. split; [eexists; split; [reflexivity |]; done |].
  split; [now rewrite lookup_alter_eq, Huser |].
  split; [now rewrite lookup_alter_eq, Hpick |].
  split; [intros other Hother; now rewrite lookup_alter_ne |].
  split; [intros other Hother; now rewrite lookup_alter_ne |].
  done.
Qed.

Lemma purchase_pick_success_witness :
  Pick.sales <$>
    picks (committed (purchase_pick Samples.never_raises 1 7 Samples.shop_session).1) !! 7
  = Some (0 + 1).
Proof.
  destruct (purchase_pick_success Samples.never_raises Samples.shop_session 1 7
              (Samples.user 1)
              {| Pick.id := 7; Pick.required_tier := 0; Pick.sales := 0 |}
              (fun s => eq_refl) eq_refl eq_refl)
    as (_ & _ & _ & Hsales & _).
  exact Hsales.
Defined.

Lemma add_pick_idemp (held : list Z) (pick_id : Z) :
  add_pick (add_pick held pick_id) pick_id = add_pick held pick_id.
Proof.
  unfold add_pick. destruct (decide (pick_id ∈ held)) as [Hin | Hnot].
  - now rewrite decide_True.
  - rewrite decide_True; [reflexivity |].
    apply elem_of_app. right. now apply list_elem_of_singleton.
Qed.

(** X13: sales count purchases, not buyers: buying the same pick twice in a
    row succeeds twice and counts two sales, while the user holds the pick
    once, as after the first purchase. *)
Theorem purchase_pick_twice (raises : step -> bool) (σ : Session)
    (user_id pick_id : Z) (user : User.t) (pick : Pick.t) :
  (forall s, raises s = false) ->
  users (working σ) !! user_id = Some user ->
  picks (working σ) !! pick_id = Some pick ->
  let first := purchase_pick raises user_id pick_id σ in
  let second := purchase_pick raises user_id pick_id first.1 in
  (exists result, second.2 = Returned result /\ success result = true)
  /\ Pick.sales <$> picks (committed second.1) !! pick_id = Some (Pick.sales pick + 2)
  /\ User.purchased_picks <$> users (committed second.1) !! user_id
     = User.purchased_picks <$> users (committed first.1) !! user_id
  /\ (pick_id ∈ User.purchased_picks user ->
      User.purchased_picks <$> users (committed second.1) !! user_id
      = Some (User.purchased_picks user)).
Proof.
  intros Hraises Huser Hpick first second. unfold second, first.
  rewrite (purchase_pick_success_run raises σ user_id pick_id user pick) by assumption.
  cbn [fst].
  erewrite purchase_pick_success_run; [| assumption | |].
  2: { cbn [working]. unfold purchased at 1. cbn [users].
       rewrite lookup_alter_eq, Huser. reflexivity. }
  2: { cbn [working]. unfold purchased at 1. cbn [picks].
       rewrite lookup_alter_eq, Hpick. reflexivity. }
  cbn [fst snd committed working]. unfold purchased. cbn [users picks].
  rewrite !lookup_alter_eq, Huser, Hpick. cbn.
  split; [eexists; split; reflexivity |].
  split; [f_equal; lia |].
  split; [now rewrite add_pick_idemp |].
  intros Hheld. rewrite add_pick_idemp. unfold add_pick. now rewrite decide_True.
Qed.

Lemma purchase_pick_twice_witness :
  Pick.sales <$>
    picks (committed (purchase_pick Samples.never_raises 1 7
                        (purchase_pick Samples.never_raises 1 7
                           Samples.shop_session).1).1) !! 7
  = Some (0 + 2)
  /\ User.purchased_picks <$>
       users (committed (purchase_pick Samples.never_raises 1 7
                           (purchase_pick Samples.never_raises 1 7
                              Samples.shop_session).1).1) !! 1
     = User.purchased_picks <$>
         users (committed (purchase_pick Samples.never_raises 1 7
                             Samples.shop_session).1) !! 1.
Proof.
  destruct (purchase_pick_twice Samples.never_raises Samples.shop_session 1 7
              (Samples.user 1)
              {| Pick.id := 7; Pick.required_tier := 0; Pick.sales := 0 |}
              (fun s => eq_refl) eq_refl eq_refl)
    as (_ & Hsales & Hheld & _).
  split; [exact Hsales | exact Hheld].
Defined.

(** ** Listings of the marketplace *)

Import MarketplaceListings.

Lemma take_sorted_first {A} (R : A -> A -> Prop) (n : nat) (l : list A) (x y : A) :
  StronglySorted R l -> x ∈ take n l -> y ∈ l -> y ∉ take n l -> R x y.
Proof.
  intros Hsorted Hx Hy Hny.
  rewrite <- (take_drop n l) in Hsorted, Hy.
  apply elem_of_app in Hy as [Hy | Hy]; [contradiction |].
  now apply (StronglySorted_app_1_elem_of R (take n l) (drop n l)).
Qed.

Lemma StronglySorted_take {A} (R : A -> A -> Prop) (n : nat) (l : list A) :
  StronglySorted R l -> StronglySorted R (take n l).
Proof.
  intros Hsorted. rewrite <- (take_drop n l) in Hsorted.
  now apply StronglySorted_app_1_l in Hsorted.
Qed.

Lemma insort_StronglySorted_by {A} (before : A -> A -> bool) (R : A -> A -> Prop)
    (x : A) (l : list A) :
  (forall a b, before a b = true -> R a b) ->
  (forall a b, before a b = false -> R b a) ->
  Transitive R ->
  StronglySorted R l -> StronglySorted R (Py.insort before x l).
Proof.
  intros Htrue Hfalse Htrans. induction 1 as [| y l Hl IH Hy]; simpl.
  - repeat constructor.
  - destruct (before x y) eqn:E.
    + constructor; [now constructor |].
      constructor; [now apply Htrue |].
      eapply Forall_impl; [exact Hy |].
      intros z Hz. transitivity y; [now apply Htrue | assumption].
    + constructor; [assumption |].
      rewrite insort_Permutation. constructor; [now apply Hfalse | assumption].
Qed.

Lemma desc2_trans {A} (key1 : A -> Z) (key2 : A -> Q) : Transitive (desc2 key1 key2).
Proof.
  intros x y z [Hxy | [Hxy Hxy']] [Hyz | [Hyz Hyz']]; unfold desc2;
    [left; lia | left; lia | left; lia |].
  right. split; [lia |]. now apply Qle_trans with (key2 y).
Qed.

Lemma order_by_desc2_Permutation {A} (key1 : A -> Z) (key2 : A -> Q) (rows : list A) :
  order_by_desc2 key1 key2 rows ≡ₚ rows.
Proof.
  unfold order_by_desc2. induction rows as [| x rows IH]; simpl; [reflexivity |].
  now rewrite insort_Permutation, IH.
Qed.

Lemma order_by_desc2_StronglySorted {A} (key1 : A -> Z) (key2 : A -> Q)
    (rows : list A) :
  StronglySorted (desc2 key1 key2) (order_by_desc2 key1 key2 rows).
Proof.
  unfold order_by_desc2. induction rows as [| x rows IH]; simpl; [constructor |].
  apply insort_StronglySorted_by; [| | apply desc2_trans | assumption].
  - intros a b Hab. unfold desc2.
    apply orb_true_iff in Hab as [Hab | Hab]; [left; lia |].
    apply andb_true_iff in Hab as [Hk Hq]. right.
    split; [lia | now apply Qle_bool_iff].
  - intros a b Hab. unfold desc2.
    apply orb_false_iff in Hab as [Hlt Hab].
    destruct (Z.eqb_spec (key1 b) (key1 a)) as [Heq | Hne]; [| left; lia].
    right. split; [lia |]. simpl in Hab.
    destruct (Qlt_le_dec (key2 a) (key2 b)) as [Hq | Hq]; [now apply Qlt_le_weak |].
    apply Qle_bool_iff in Hq. congruence.
Qed.

(** X14: [get_featured_picks] lists the dictionaries of the six newest
    active rows, or of all active rows when they are fewer, newest first; it
    is all or nothing: when the query raises or [to_dict] raises for one of
    these rows, the result is empty. *)
Theorem get_featured_picks_spec {Row Dict : Type} (active : Row -> bool)
    (created_at : Row -> datetime) (to_dict : Row -> option Dict)
    (query_raises : bool) (table : list Row) :
  let rows := featured_rows active created_at table in
  let result := get_featured_picks active created_at to_dict query_raises table in
  (length result <= 6)%nat
  /\ (query_raises = true \/ (exists r, r ∈ rows /\ to_dict r = None) -> result = [])
  /\ (query_raises = false -> (forall r, r ∈ rows -> is_Some (to_dict r)) ->
      Forall2 (fun r d => to_dict r = Some d) rows result)
  /\ (forall r, r ∈ rows -> r ∈ table /\ active r = true)
  /\ StronglySorted (fun r r' => created_at r' <= created_at r) rows
  /\ (forall r r', r ∈ table -> active r = true -> r ∉ rows -> r' ∈ rows ->
        created_at r <= created_at r')
  /\ length rows = (6 `min` length (filter (fun r => active r = true) table))%nat.
Proof.
  intros rows result.
  assert (Hlen : (length rows <= 6)%nat).
  { unfold rows, featured_rows. rewrite length_take. lia. }
  split; [| split; [| split; [| split; [| split; [| split]]]]].
  7: { unfold rows, featured_rows. now rewrite length_take, length_sorted. }
  - unfold result, get_featured_picks. fold rows.
    destruct query_raises; [simpl; lia |].
    destruct (mapM to_dict rows) as [dicts |] eqn:E; [| simpl; lia].
    apply mapM_Some, Forall2_length in E. lia.
  - unfold result, get_featured_picks. fold rows.
    intros [-> | (r & Hr & Hnone)]; [reflexivity |].
    destruct query_raises; [reflexivity |].
    rewrite (mapM_None_2 to_dict rows); [reflexivity |].
    apply Exists_exists. eauto.
  - unfold result, get_featured_picks. fold rows. intros -> Hall.
    destruct (mapM_is_Some_2 to_dict rows) as [dicts Hdicts].
    { apply Forall_forall. exact Hall. }
    rewrite Hdicts. now apply mapM_Some.
  - intros r Hr. unfold rows, featured_rows in Hr.
    apply subseteq_take in Hr. rewrite sorted_Permutation in Hr.
    apply list_elem_of_filter in Hr. tauto.
  - unfold rows, featured_rows. apply StronglySorted_take.
    apply (sorted_StronglySorted created_at true).
  - intros r r' Hr Hactive Hnot Hr'.
    apply (take_sorted_first (Py.in_order created_at true) 6
             (Py.sorted created_at true (filter (fun r => active r = true) table)) r' r);
      [apply sorted_StronglySorted | exact Hr' | | exact Hnot].
    rewrite sorted_Permutation. now apply list_elem_of_filter.
Qed.

(** X15: [get_trending_categories] answers the four default names exactly
    when the query or a [to_dict] raises; otherwise it lists the
    dictionaries of at most four active categories, those with the most
    picks first, and an empty list when no category is active. *)
Theorem get_trending_categories_spec {Row Dict : Type} (active : Row -> bool)
    (to_dict : Row -> option Dict) (pick_count : Row -> Z)
    (query_raises : bool) (table : list Row) :
  let rows := trending_rows active pick_count table in
  let result :=
    get_trending_categories active to_dict pick_count query_raises table in
  (length result <= 4)%nat
  /\ (query_raises = true \/ (exists r, r ∈ rows /\ to_dict r = None) ->
      result = [inr "NBA"; inr "NFL"; inr "MLB"; inr "UFC"])
  /\ (query_raises = false -> (forall r, r ∈ rows -> is_Some (to_dict r)) ->
      Forall2 (fun r x => exists d, to_dict r = Some d /\ x = inl d) rows result)
  /\ (query_raises = false -> (forall r, r ∈ table -> active r = false) ->
      result = [])
  /\ (forall r, r ∈ rows -> r ∈ table /\ active r = true)
  /\ StronglySorted (fun r r' => pick_count r' <= pick_count r) rows
  /\ (forall r r', r ∈ table -> active r = true -> r ∉ rows -> r' ∈ rows ->
        pick_count r <= pick_count r').
Proof.
  intros rows result.
  assert (Hlen : (length rows <= 4)%nat).
  { unfold rows, trending_rows. rewrite length_take. lia. }
  assert (Hin : forall r, r ∈ rows -> r ∈ table /\ active r = true).
  { intros r Hr. unfold rows, trending_rows in Hr.
    apply subseteq_take in Hr. rewrite sorted_Permutation in Hr.
    apply list_elem_of_filter in Hr. tauto. }
  assert (Hok : query_raises = false ->
                (forall r, r ∈ rows -> is_Some (to_dict r)) ->
                Forall2 (fun r x => exists d, to_dict r = Some d /\ x = inl d)
                  rows result).
  { unfold result, get_trending_categories. fold rows. intros -> Hall.
    destruct (mapM_is_Some_2 to_dict rows) as [dicts Hdicts].
    { apply Forall_forall. exact Hall. }
    rewrite Hdicts. apply mapM_Some in Hdicts.
    apply Forall2_fmap_r. eapply Forall2_impl; [exact Hdicts |]. eauto. }
  split; [| split; [| split; [| split; [| split; [| split]]]]].
  - unfold result, get_trending_categories. fold rows.
    destruct query_raises; [simpl; lia |].
    destruct (mapM to_dict rows) as [dicts |] eqn:E; [| simpl; lia].
    apply mapM_Some, Forall2_length in E. rewrite length_fmap. lia.
  - unfold result, get_trending_categories. fold rows.
    intros [-> | (r & Hr & Hnone)]; [reflexivity |].
    destruct query_raises; [reflexivity |].
    rewrite (mapM_None_2 to_dict rows); [reflexivity |].
    apply Exists_exists. eauto.
  - exact Hok.
  - intros Hquery Hinactive.
    assert (Hrows : rows = []).
    { apply elem_of_nil_inv. intros r Hr. destruct (Hin r Hr) as [Hr' Ha].
      rewrite (Hinactive r Hr') in Ha. discriminate. }
    specialize (Hok Hquery). rewrite Hrows in Hok.
    assert (Hnil : Forall2 (fun (r : Row) (x : Dict + string) =>
                              exists d, to_dict r = Some d /\ x = inl d) [] result)
      by (apply Hok; intros r Hr; inversion Hr).
    now apply Forall2_nil_inv_l in Hnil.
  - exact Hin.
  - unfold rows, trending_rows. apply StronglySorted_take.
    apply (sorted_StronglySorted pick_count true).
  - intros r r' Hr Hactive Hnot Hr'.
    apply (take_sorted_first (Py.in_order pick_count true) 4
             (Py.sorted pick_count true (filter (fun r => active r = true) table)) r' r);
      [apply sorted_StronglySorted | exact Hr' | | exact Hnot].
    rewrite sorted_Permutation. now apply list_elem_of_filter.
Qed.

(** X16: [get_clutch_picks] lists the dictionaries of the [limit] first
    active picks created in the last 30 days, or of all of them when they
    are fewer, by decreasing sales and, among equal sales, decreasing
    rating; no pick left out ranks above a listed one; the result is empty
    when the query or a [to_dict] raises. *)
Theorem get_clutch_picks_spec {Row Dict : Type} (active : Row -> bool)
    (created_at : Row -> datetime) (to_dict : Row -> option Dict)
    (sales : Row -> Z) (rating : Row -> Q)
    (query_raises : bool) (now : datetime) (limit : nat) (table : list Row) :
  let rows := clutch_rows active created_at sales rating now limit table in
  let result :=
    get_clutch_picks active created_at to_dict sales rating query_raises now
      limit table in
  (length result <= limit)%nat
  /\ (query_raises = true \/ (exists r, r ∈ rows /\ to_dict r = None) -> result = [])
  /\ (query_raises = false -> (forall r, r ∈ rows -> is_Some (to_dict r)) ->
      Forall2 (fun r d => to_dict r = Some d) rows result)
  /\ (forall r, r ∈ rows ->
        r ∈ table /\ active r = true
        /\ now - Datetime.timedelta 30 <= created_at r)
  /\ StronglySorted (desc2 sales rating) rows
  /\ (forall r r', r ∈ table -> active r = true ->
        now - Datetime.timedelta 30 <= created_at r ->
        r ∉ rows -> r' ∈ rows -> desc2 sales rating r' r)
  /\ length rows
     = Nat.min limit
         (length (filter (fun r => now - Datetime.timedelta 30 <= created_at r
                                   /\ active r = true) table)).
Proof.
  intros rows result.
  assert (Hlen : (length rows <= limit)%nat).
  { unfold rows, clutch_rows. rewrite length_take. lia. }
  split; [| split; [| split; [| split; [| split; [| split]]]]].
  7: { unfold rows, clutch_rows. rewrite length_take.
       now rewrite (Permutation_length (order_by_desc2_Permutation sales rating _)). }
  - unfold result, get_clutch_picks. fold rows.
    destruct query_raises; [simpl; lia |].
    destruct (mapM to_dict rows) as [dicts |] eqn:E; [| simpl; lia].
    apply mapM_Some, Forall2_length in E. lia.
  - unfold result, get_clutch_picks. fold rows.
    intros [-> | (r & Hr & Hnone)]; [reflexivity |].
    destruct query_raises; [reflexivity |].
    rewrite (mapM_None_2 to_dict rows); [reflexivity |].
    apply Exists_exists. eauto.
  - unfold result, get_clutch_picks. fold rows. intros -> Hall.
    destruct (mapM_is_Some_2 to_dict rows) as [dicts Hdicts].
    { apply Forall_forall. exact Hall. }
    rewrite Hdicts. now apply mapM_Some.
  - intros r Hr. unfold rows, clutch_rows in Hr.
    apply subseteq_take in Hr. rewrite order_by_desc2_Permutation in Hr.
    apply list_elem_of_filter in Hr. tauto.
  - unfold rows, clutch_rows. apply StronglySorted_take.
    apply order_by_desc2_StronglySorted.
  - intros r r' Hr Hactive Hrecent Hnot Hr'.
    apply (take_sorted_first (desc2 sales rating) limit
             (order_by_desc2 sales rating
                (filter (fun r => now - Datetime.timedelta 30 <= created_at r
                                  /\ active r = true) table)) r' r);
      [apply order_by_desc2_StronglySorted | exact Hr' | | exact Hnot].
    rewrite order_by_desc2_Permutation. now apply list_elem_of_filter.
Qed.


Lemma get_featured_picks_spec_witness :
  get_featured_picks Samples.row_active Samples.row_created_at
    Samples.broken_to_dict false Samples.listing_table = []
  /\ Forall2 (fun r d => Samples.row_to_dict r = Some d)
       (featured_rows Samples.row_active Samples.row_created_at Samples.listing_table)
       (get_featured_picks Samples.row_active Samples.row_created_at
          Samples.row_to_dict false Samples.listing_table)
  /\ get_featured_picks Samples.row_active Samples.row_created_at
       Samples.row_to_dict false Samples.listing_table = [2; 5].
Proof.
  split; [| split; [| reflexivity]].
  - apply (proj1 (proj2 (get_featured_picks_spec Samples.row_active
                           Samples.row_created_at Samples.broken_to_dict false
                           Samples.listing_table))).
    right. exists (3, true, 2). split; [vm_compute; constructor | reflexivity].
  - apply (proj1 (proj2 (proj2 (get_featured_picks_spec Samples.row_active
                                  Samples.row_created_at Samples.row_to_dict false
                                  Samples.listing_table)))); [reflexivity |].
    intros r _. unfold Samples.row_to_dict. eauto.
Defined.

Lemma get_trending_categories_spec_witness :
  get_trending_categories Samples.row_active Samples.broken_to_dict
    Samples.row_count false Samples.listing_table
  = [inr "NBA"; inr "NFL"; inr "MLB"; inr "UFC"]
  /\ get_trending_categories Samples.row_active Samples.row_to_dict
       Samples.row_count false [(2, false, 9)] = [].
Proof.
  split.
  - apply (proj1 (proj2 (get_trending_categories_spec Samples.row_active
                           Samples.broken_to_dict Samples.row_count false
                           Samples.listing_table))).
    right. exists (3, true, 2). split; [vm_compute; do 2 constructor | reflexivity].
  - apply (proj1 (proj2 (proj2 (proj2
             (get_trending_categories_spec Samples.row_active Samples.row_to_dict
                Samples.row_count false [(2, false, 9)]))))); [reflexivity |].
    intros r Hr. apply list_elem_of_singleton in Hr. now subst r.
Defined.

Lemma get_clutch_picks_spec_witness :
  get_clutch_picks Samples.row_active Samples.row_created_at Samples.broken_to_dict
    Samples.row_count Samples.row_rating false 0 8 Samples.listing_table = []
  /\ Forall2 (fun r d => Samples.row_to_dict r = Some d)
       (clutch_rows Samples.row_active Samples.row_created_at Samples.row_count
          Samples.row_rating 0 8 Samples.listing_table)
       (get_clutch_picks Samples.row_active Samples.row_created_at
          Samples.row_to_dict Samples.row_count Samples.row_rating false 0 8
          Samples.listing_table)
  /\ get_clutch_picks Samples.row_active Samples.row_created_at
       Samples.row_to_dict Samples.row_count Samples.row_rating false 0 8
       Samples.listing_table = [5; 2].
Proof.
  split; [| split; [| reflexivity]].
  - apply (proj1 (proj2 (get_clutch_picks_spec Samples.row_active
                           Samples.row_created_at Samples.broken_to_dict
                           Samples.row_count Samples.row_rating false 0 8
                           Samples.listing_table))).
    right. exists (3, true, 2). split; [vm_compute; do 2 constructor | reflexivity].
  - apply (proj1 (proj2 (proj2 (get_clutch_picks_spec Samples.row_active
                                  Samples.row_created_at Samples.row_to_dict
                                  Samples.row_count Samples.row_rating false 0 8
                                  Samples.listing_table)))); [reflexivity |].
    intros r _. unfold Samples.row_to_dict. eauto.
Defined.

(** ** Hedging recommendation *)



(** ** Serialising users *)

(** X18: [User.to_dict] returns a dictionary exactly when the user has a
    creation time and the nested [to_dict] calls return, the one of the
    subscription needing its start date; a user fresh from the constructor
    has no creation time yet, so serialising it raises. *)
Theorem user_to_dict_defined {BettingStats : Type}
    (betting_stats_to_dict : BettingStats -> option UserModel.json)
    (generate_password_hash : string -> string) (user : UserModel.User) :
  (is_Some (UserModel.to_dict betting_stats_to_dict user)
   <-> is_Some (UserModel.created_at user)
       /\ (forall sub, UserModel.subscription user = Some sub ->
             is_Some (UserModel.Subscription.start_date sub))
       /\ (forall stats, UserModel.betting_stats user = Some stats ->
             is_Some (betting_stats_to_dict stats)))
  /\ (forall username email name password,
        UserModel.to_dict betting_stats_to_dict
          (UserModel.__init__ generate_password_hash username email name password)
        = None).
Proof.
  split; [| reflexivity].
  unfold UserModel.to_dict, UserModel.related_to_dict, UserModel.subscription_to_dict.
  destruct (UserModel.created_at user) as [created |];
    [| split; [intros H | intros [H _]]; now apply is_Some_None in H].
  destruct (UserModel.subscription user) as [sub |];
    [destruct (UserModel.Subscription.start_date sub) as [start |] eqn:Hstart |];
    (destruct (UserModel.betting_stats user) as [stats |];
     [destruct (betting_stats_to_dict stats) as [d |] eqn:Hd |]);
    cbn [mbind option_bind]; split.
  all: try (intros H; now apply is_Some_None in H).
  all: try solve [intros _; split; [eauto |]; split; intros ? Heq;
                  inversion Heq; subst; rewrite ?Hstart, ?Hd; eauto].
  all: try solve [intros _; eauto].
  all: intros (_ & Hsub & Hstats).
  all: try (specialize (Hstats stats eq_refl); rewrite Hd in Hstats;
            now apply is_Some_None in Hstats).
  all: specialize (Hsub sub eq_refl); rewrite Hstart in Hsub;
    now apply is_Some_None in Hsub.
Qed.

Lemma user_to_dict_defined_witness :
  is_Some (UserModel.to_dict Samples.stats_to_dict Samples.saved_user).
Proof.
  apply (proj1 (user_to_dict_defined Samples.stats_to_dict (fun p => p)
                  Samples.saved_user)).
  split; [vm_compute; eauto |]. split; intros ? [=].
Defined.

(** X19: a dictionary returned by [User.to_dict] has exactly the keys id,
    username, email, name, created_at, profile_picture, subscription and
    betting_stats, in this order: the password hash and the last login are
    never part of it. *)
Theorem user_to_dict_keys {BettingStats : Type}
    (betting_stats_to_dict : BettingStats -> option UserModel.json)
    (user : UserModel.User) (d : UserModel.json) :
  UserModel.to_dict betting_stats_to_dict user = Some d ->
  exists items,
    d = UserModel.JDict items
    /\ (items.*1 = ["id"; "username"; "email"; "name"; "created_at";
                    "profile_picture"; "subscription"; "betting_stats"])
    /\ ("password_hash" ∉ items.*1)
    /\ (UserModel.JStr (UserModel.username user) ∈ items.*2).
Proof.
  unfold UserModel.to_dict.
  destruct (UserModel.created_at user) as [created |]; [| discriminate].
  destruct (UserModel.related_to_dict UserModel.subscription_to_dict _) as [sub |],
    (UserModel.related_to_dict betting_stats_to_dict _) as [stats |];
    cbn [mbind option_bind]; try discriminate.
  intros [= <-]. eexists. split; [reflexivity |].
  split; [reflexivity |]. split.
  - cbn. rewrite !elem_of_cons, elem_of_nil. intros H.
    repeat destruct H as [H | H]; discriminate || done.
  - cbn. rewrite !elem_of_cons. tauto.
Qed.

Lemma user_to_dict_keys_witness :
  exists items,
    UserModel.JDict
      [("id", UserModel.JInt 1); ("username", UserModel.JStr "ann");
       ("email", UserModel.JStr "ann@example.org"); ("name", UserModel.JStr "Ann");
       ("created_at", UserModel.JStr "1970-01-01T00:00:00");
       ("profile_picture", UserModel.JNone); ("subscription", UserModel.JNone);
       ("betting_stats", UserModel.JNone)]
    = UserModel.JDict items
    /\ (items.*1 = ["id"; "username"; "email"; "name"; "created_at";
                    "profile_picture"; "subscription"; "betting_stats"])
    /\ ("password_hash" ∉ items.*1)
    /\ (UserModel.JStr (UserModel.username Samples.saved_user) ∈ items.*2).
Proof.
  apply (user_to_dict_keys Samples.stats_to_dict Samples.saved_user).
  vm_compute. reflexivity.
Defined.

(** ** Order of arrival, whatever the arithmetic *)

Lemma NoDup_fmap_elem_inj {A B} (f : A -> B) (l : list A) (x y : A) :
  NoDup (f <$> l) -> x ∈ l -> y ∈ l -> f x = f y -> x = y.
Proof.
  induction l as [| z l IH]; intros Hnodup Hx Hy Heq; [inversion Hx |].
  rewrite fmap_cons in Hnodup. apply NoDup_cons in Hnodup as [Hz Hnodup].
  apply elem_of_cons in Hx as [-> | Hx]; apply elem_of_cons in Hy as [-> | Hy].
  - reflexivity.
  - exfalso. apply Hz. rewrite Heq. now apply list_elem_of_fmap_2.
  - exfalso. apply Hz. rewrite <- Heq. now apply list_elem_of_fmap_2.
  - now apply IH.
Qed.

(** Rows with pairwise different keys are sorted into one order only. *)
Lemma sorted_unique_keys {A} (key : A -> Z) (reverse : bool) (l l' : list A) :
  l ≡ₚ l' -> NoDup (key <$> l) ->
  Py.sorted key reverse l = Py.sorted key reverse l'.
Proof.
  intros Hperm Hnodup.
  apply (StronglySorted_unique_strong (Py.in_order key reverse));
    [| apply sorted_StronglySorted | apply sorted_StronglySorted
     | now rewrite !sorted_Permutation].
  intros x y Hx Hy Hxy Hyx.
  rewrite sorted_Permutation in Hx. rewrite sorted_Permutation, <- Hperm in Hy.
  apply (NoDup_fmap_elem_inj key l x y Hnodup Hx Hy).
  unfold Py.in_order in *. destruct reverse; lia.
Qed.

Section numeric_history_facts.
Context {N : Type}.

Lemma numeric_bet_data_filter_first (bets : list (NumericHistory.BetRow N))
    (uid : Z) (start_date : datetime) :
  NumericHistory.bet_data bets uid start_date
  = omap (fun bet => match NumericHistory.profit bet with
                     | Some p => Some (NumericHistory.created_at bet, p)
                     | None => None
                     end)
      (Py.sorted NumericHistory.created_at false
         (filter (fun bet => is_Some (NumericHistory.profit bet)
                             /\ NumericHistory.user_id bet = uid
                             /\ start_date <= NumericHistory.created_at bet
                             /\ NumericHistory.status bet <> "pending") bets)).
Proof.
  unfold NumericHistory.bet_data.
  rewrite omap_filter_is_Some, filter_sorted, list_filter_filter.
  f_equal. f_equal. apply list_filter_iff. intros bet.
  destruct (NumericHistory.profit bet); [| split; intros [[? [=]] _]].
  split; intros [_ H]; eauto.
Qed.

Lemma fst_omap_rows (l : list (NumericHistory.BetRow N)) :
  Forall (fun bet => is_Some (NumericHistory.profit bet)) l ->
  (omap (fun bet => match NumericHistory.profit bet with
                    | Some p => Some (NumericHistory.created_at bet, p)
                    | None => None
                    end) l).*1
  = NumericHistory.created_at <$> l.
Proof.
  induction 1 as [| bet l [p Hp] _ IH]; [reflexivity |].
  simpl. rewrite Hp. simpl. f_equal. exact IH.
Qed.

Lemma numeric_bet_data_unique (bets bets' : list (NumericHistory.BetRow N))
    (uid : Z) (start_date : datetime) :
  bets ≡ₚ bets' ->
  NoDup (NumericHistory.bet_data bets uid start_date).*1 ->
  NumericHistory.bet_data bets uid start_date
  = NumericHistory.bet_data bets' uid start_date.
Proof.
  intros Hperm Hnodup. rewrite !numeric_bet_data_filter_first in *.
  set (qualifies := fun bet : NumericHistory.BetRow N =>
         is_Some (NumericHistory.profit bet)
         /\ NumericHistory.user_id bet = uid
         /\ start_date <= NumericHistory.created_at bet
         /\ NumericHistory.status bet <> "pending") in *.
  rewrite fst_omap_rows in Hnodup.
  2: { apply Forall_forall. intros bet Hbet.
       rewrite sorted_Permutation in Hbet.
       apply list_elem_of_filter in Hbet as [Hq _]. apply Hq. }
  rewrite sorted_Permutation in Hnodup.
  f_equal. apply sorted_unique_keys; [now rewrite Hperm | assumption].
Qed.

End numeric_history_facts.

(** The function over exact rationals is [DashboardService]'s. *)
Lemma insort_fmap {A B} (f : A -> B) (before : B -> B -> bool) (x : A) (l : list A) :
  Py.insort before (f x) (f <$> l)
  = f <$> Py.insort (fun a b => before (f a) (f b)) x l.
Proof.
  induction l as [| y l IH]; [reflexivity |].
  rewrite fmap_cons. cbn [Py.insort].
  destruct (before (f x) (f y)); [reflexivity |].
  rewrite fmap_cons. f_equal. exact IH.
Qed.

Lemma sorted_fmap {A B} (f : A -> B) (key : B -> Z) (reverse : bool) (l : list A) :
  Py.sorted key reverse (f <$> l) = f <$> Py.sorted (fun a => key (f a)) reverse l.
Proof.
  unfold Py.sorted. induction l as [| x l IH]; [reflexivity |].
  rewrite fmap_cons. cbn [foldr]. rewrite IH. apply insort_fmap.
Qed.

Lemma filter_fmap {A B} (f : A -> B) (P : B -> Prop) `{!forall y, Decision (P y)}
    (l : list A) :
  filter P (f <$> l) = f <$> filter (fun x => P (f x)) l.
Proof.
  induction l as [| x l IH]; [reflexivity |].
  rewrite fmap_cons, !filter_cons, IH. now destruct (decide (P (f x))).
Qed.

Lemma omap_fmap {A B C} (f : A -> B) (g : B -> option C) (l : list A) :
  omap g (f <$> l) = omap (fun x => g (f x)) l.
Proof.
  induction l as [| x l IH]; [reflexivity |].
  simpl. destruct (g (f x)); [f_equal |]; exact IH.
Qed.

Lemma exact_bet_data (db : Store) (uid : Z) (start_date : datetime) :
  NumericHistory.bet_data (NumericHistory.exact_row <$> bets db) uid start_date
  = DashboardService.bet_data db uid start_date.
Proof.
  unfold NumericHistory.bet_data, DashboardService.bet_data.
  now rewrite filter_fmap, sorted_fmap, omap_fmap.
Qed.

Lemma index_min_of_exact_rows (rows : list (datetime * Q)) :
  Pandas.index_min (NumericHistory.index rows) = Pandas.index_min rows.
Proof.
  destruct rows as [| r rows]; [reflexivity |].
  unfold NumericHistory.index. cbn [fmap list_fmap Pandas.index_min fst].
  induction rows as [| r' rows IH]; [reflexivity |].
  rewrite fmap_cons. cbn [foldr fst]. f_equal. exact IH.
Qed.

Lemma index_max_of_exact_rows (rows : list (datetime * Q)) :
  Pandas.index_max (NumericHistory.index rows) = Pandas.index_max rows.
Proof.
  destruct rows as [| r rows]; [reflexivity |].
  unfold NumericHistory.index. cbn [fmap list_fmap Pandas.index_max fst].
  induction rows as [| r' rows IH]; [reflexivity |].
  rewrite fmap_cons. cbn [foldr fst]. f_equal. exact IH.
Qed.

Lemma index_of_exact_rows (rows : list (datetime * Q)) (freq : Z) :
  Pandas.bin_labels freq (NumericHistory.index rows) = Pandas.bin_labels freq rows.
Proof.
  unfold Pandas.bin_labels.
  now rewrite index_min_of_exact_rows, index_max_of_exact_rows.
Qed.

Lemma exact_cumsum_from (acc : Q) (col : list (datetime * Q)) :
  NumericHistory.cumsum_from Qplus acc col = Pandas.cumsum_from acc col.
Proof.
  revert acc. induction col as [| [t v] col IH]; intros acc; [reflexivity |].
  simpl. now rewrite IH.
Qed.

Lemma exact_history (db : Store) (now : datetime) (uid : Z) (days : Z) :
  NumericHistory.get_performance_history Py.sum 0%Q Qplus (fun x => Py.round x 2)
    (NumericHistory.exact_row <$> bets db) now uid days
  = DashboardService.get_performance_history db now uid days.
Proof.
  unfold NumericHistory.get_performance_history,
    DashboardService.get_performance_history.
  rewrite exact_bet_data.
  destruct (DashboardService.bet_data db uid (now - Datetime.timedelta days))
    as [| r rows] eqn:E; [reflexivity |].
  rewrite <- E. unfold Pandas.cumsum. rewrite exact_cumsum_from.
  f_equal. f_equal.
  unfold NumericHistory.resample_sum, Pandas.resample_sum.
  rewrite index_of_exact_rows. rewrite E. reflexivity.
Qed.

(** C5 (amended): when the rows handed to pandas have pairwise different
    timestamps, the performance history is the same for every order of the
    table of bets, whatever number type the profits have and however the
    values of a bucket are added up; with exact additions it is the same
    for every order also when timestamps coincide. *)
Theorem performance_history_permutation_distinct {N : Type}
    (aggregate : list N -> N) (zero : N) (add : N -> N -> N) (round2 : N -> Q)
    (table table' : list (NumericHistory.BetRow N))
    (db db' : Store) (now : datetime) (uid : Z) (days : Z) :
  (table ≡ₚ table' ->
   NoDup (NumericHistory.bet_data table uid (now - Datetime.timedelta days)).*1 ->
   NumericHistory.get_performance_history aggregate zero add round2 table now uid days
   = NumericHistory.get_performance_history aggregate zero add round2 table' now uid
       days)
  /\ (bets db ≡ₚ bets db' ->
      NumericHistory.get_performance_history Py.sum 0%Q Qplus
        (fun x => Py.round x 2) (NumericHistory.exact_row <$> bets db) now uid days
      = NumericHistory.get_performance_history Py.sum 0%Q Qplus
          (fun x => Py.round x 2) (NumericHistory.exact_row <$> bets db') now uid
          days).
Proof.
  split.
  - intros Hperm Hnodup. unfold NumericHistory.get_performance_history.
    now rewrite (numeric_bet_data_unique table table' uid _ Hperm Hnodup).
  - intros Hperm. rewrite !exact_history.
    now apply performance_history_permutation.
Qed.

Lemma performance_history_permutation_distinct_witness :
  NumericHistory.float_history Samples.spread_bets (100 * Samples.day) 1 30
  = NumericHistory.float_history Samples.spread_bets_rotated (100 * Samples.day) 1 30.
Proof.
  apply (proj1 (performance_history_permutation_distinct
                  NumericHistory.float_sum PrimFloat.zero PrimFloat.add
                  NumericHistory.float_round2
                  Samples.spread_bets Samples.spread_bets_rotated
                  Samples.trend_db Samples.trend_db (100 * Samples.day) 1 30)).
  - unfold Samples.spread_bets, Samples.spread_bets_rotated.
    rewrite (Permutation_cons_append [_; _]). reflexivity.
  - vm_compute. repeat constructor; rewrite ?elem_of_cons, ?elem_of_nil;
      intros H; repeat destruct H as [H | H]; discriminate || done.
Defined.

(** C5 as stated fails: three bets with the same timestamp and the double
    precision profits 1.11, 2.165 and 0.15 give the point 3.43 in one table
    order and 3.42 in another. *)
Lemma performance_history_depends_on_tied_order :
  Samples.tied_bets ≡ₚ Samples.tied_bets_rotated
  /\ DashboardService.profit <$>
       NumericHistory.float_history Samples.tied_bets (100 * Samples.day) 1 30
     = [343 # 100]
  /\ DashboardService.profit <$>
       NumericHistory.float_history Samples.tied_bets_rotated (100 * Samples.day) 1 30
     = [342 # 100]
  /\ NumericHistory.float_history Samples.tied_bets (100 * Samples.day) 1 30
     <> NumericHistory.float_history Samples.tied_bets_rotated (100 * Samples.day) 1 30.
Proof.
  split; [| split; [| split]].
  - unfold Samples.tied_bets, Samples.tied_bets_rotated.
    rewrite (Permutation_cons_append [_; _]). reflexivity.
  - vm_compute. reflexivity.
  - vm_compute. reflexivity.
  - intros Heq. apply (f_equal (fmap DashboardService.profit)) in Heq.
    vm_compute in Heq. discriminate.
Qed.
